(** * swcpy: the SportsWorldCentral client SDK

    A shallow embedding of [swcpy/swc_client.py] (class [SWCClient]) and
    the properties of its request assembly, parameter filtering, error
    propagation and bulk file naming.

    Python objects are modelled as follows.
    - A [dict] used for query parameters is a finite map from strings to
      Python values ([gmap string pyval]); dicts live in a store and are
      passed around by reference, as in Python.
    - Exceptions are the [Raise] case of a result type; methods are
      computations in a state-and-exception monad over the [world], which
      holds the store of dicts, the calls placed on httpx and the
      requests that were put on the wire.
    - The remote hosts are an arbitrary deterministic function [net] from
      the wire history and the current request to an outcome. *)

From Stdlib Require Import ZArith String Ascii List DecimalString.
From Stdlib Require Import DecimalPos DecimalZ.
From stdpp Require Import base option list gmap strings fin_maps.

Set Warnings "-register-all".

Local Open Scope string_scope.
Local Open Scope Z_scope.
Local Open Scope list_scope.

(** ** Python values and exceptions *)

(** Values that the SDK's keyword arguments range over. *)
Inductive pyval : Type :=
  | VNone
  | VBool (b : bool)
  | VInt (z : Z)
  | VStr (s : string).

#[global] Instance pyval_eq_dec : EqDecision pyval.
Proof. solve_decision. Defined.

(** [v is not None] *)
Definition is_not_None (v : pyval) : bool :=
  match v with VNone => false | _ => true end.

(** Exceptions that can leave the SDK's methods. *)
Inductive exn : Type :=
  | HTTPStatusError (status_code : Z) (text : string)
  | RequestError (msg : string)
  | JSONDecodeError
  | KeyError (key : string)
  | TypeError
  | ValidationError (field : string).

Inductive result (A : Type) : Type :=
  | Ok (a : A)
  | Raise (e : exn).
Arguments Ok {A} a.
Arguments Raise {A} e.

#[global] Instance result_ret : MRet result := λ A a, Ok a.
#[global] Instance result_bind : MBind result := λ A B f r,
  match r with
  | Ok a => f a
  | Raise e => Raise e
  end.

(** ** JSON documents, as [json.loads] returns them *)

(** Python's [float] is kept abstract: the SDK stores floats and never
    computes with them.  [JObj] lists the items of a [dict] in insertion
    order. *)
Inductive json (pyfloat : Type) : Type :=
  | JNull
  | JBool (b : bool)
  | JInt (z : Z)
  | JFloat (f : pyfloat)
  | JStr (s : string)
  | JArr (items : list (json pyfloat))
  | JObj (members : list (string * json pyfloat)).
Arguments JNull {pyfloat}.
Arguments JBool {pyfloat} b.
Arguments JInt {pyfloat} z.
Arguments JFloat {pyfloat} f.
Arguments JStr {pyfloat} s.
Arguments JArr {pyfloat} items.
Arguments JObj {pyfloat} members.

(** ** Requests, responses and the world *)

(** A parameter dict. *)
Abbreviation pydict := (gmap string pyval).

(** Which httpx entry point a request goes through: the client object
    held by the SDK ([self.http_client.get]) or the module-level
    function ([httpx.get]). *)
Inductive entry : Type :=
  | ViaClient (base_url : string)
  | ViaModule.

Record request : Type := {
  req_entry : entry;
  req_url : string;
  req_params : option pydict;
  req_follow_redirects : bool
}.

(** [httpx.Response]: [resp_json] is what [response.json()] evaluates
    to, [None] when the body is not a JSON document; [location] is the
    URL that the Location header resolves to, [None] without that
    header. *)
Record Response (pyfloat : Type) : Type := {
  status_code : Z;
  content : string;
  resp_json : option (json pyfloat);
  location : option string
}.
Arguments status_code {pyfloat} r.
Arguments content {pyfloat} r.
Arguments resp_json {pyfloat} r.
Arguments location {pyfloat} r.

(** [Response.has_redirect_location], with the target: a redirect status
    (301, 302, 303, 307, 308) that comes with a Location. *)
Definition has_redirect_location {pyfloat : Type} (r : Response pyfloat)
  : option string :=
  if existsb (Z.eqb (status_code r)) [301; 302; 303; 307; 308]
  then location r else None.

(** httpx's limit on the redirects that one call follows. *)
Definition DEFAULT_MAX_REDIRECTS : nat := 20.

(** [httpx.TooManyRedirects], a [RequestError]. *)
Definition TooManyRedirects : exn :=
  RequestError "Exceeded maximum allowed redirects.".

(** The GET that follows a redirect: the same call, on the target. *)
Definition redirected (req : request) (target : string) : request :=
  {| req_entry := req_entry req;
     req_url := target;
     req_params := None;
     req_follow_redirects := req_follow_redirects req |}.

(** What one attempt on the wire comes back with. *)
Inductive outcome (pyfloat : Type) : Type :=
  | Responds (r : Response pyfloat)
  | Fails (e : exn).
Arguments Responds {pyfloat} r.
Arguments Fails {pyfloat} e.

(** A reference to a dict in the store. *)
Abbreviation loc := nat.

Record world : Type := {
  heap : list pydict;       (* the dicts allocated so far, by reference *)
  calls : list request;     (* calls placed on httpx by the SDK *)
  wire : list request       (* attempts made on the network *)
}.

(** ** The monad of methods *)

Definition M (A : Type) : Type := world → result A * world.

#[global] Instance M_ret : MRet M := λ A a w, (Ok a, w).
#[global] Instance M_bind : MBind M := λ A B f m w,
  match m w with
  | (Ok a, w') => f a w'
  | (Raise e, w') => (Raise e, w')
  end.

Definition raise {A : Type} (e : exn) : M A := λ w, (Raise e, w).

(** [try: m except: h], where [h e = None] when no clause matches. *)
Definition try_except {A : Type} (m : M A) (h : exn → option (M A)) : M A :=
  λ w, match m w with
       | (Ok a, w') => (Ok a, w')
       | (Raise e, w') =>
           match h e with
           | Some k => k w'
           | None => (Raise e, w')
           end
       end.

Definition lift_result {A : Type} (r : result A) : M A := λ w, (r, w).

(** A dict display or comprehension: a new dict object in the store. *)
Definition new_dict (d : pydict) : M loc := λ w,
  (Ok (length (heap w)),
   {| heap := heap w ++ [d]; calls := calls w; wire := wire w |}).

(** Reading through a reference. *)
Definition deref (l : loc) (w : world) : option pydict := heap w !! l.

(** A list comprehension over a constructor that may raise: the
    elements in order, or the first exception. *)
Fixpoint comprehend {A B : Type} (f : A → result B) (xs : list A)
  : result (list B) :=
  match xs with
  | [] => Ok []
  | x :: xs' =>
      match f x with
      | Raise e => Raise e
      | Ok y =>
          match comprehend f xs' with
          | Raise e => Raise e
          | Ok ys => Ok (y :: ys)
          end
      end
  end.

(** ** Strings *)

(** [str.lower()] on one character.  Only the ASCII capitals are mapped;
    the one comparison made with a lowered string is against the ASCII
    word [parquet], and no character outside ASCII lowers to one of its
    letters. *)
Definition lower_char (c : ascii) : ascii :=
  let n := nat_of_ascii c in
  if ((65 <=? n) && (n <=? 90))%nat then ascii_of_nat (n + 32) else c.

Fixpoint lower (s : string) : string :=
  match s with
  | EmptyString => EmptyString
  | String c s' => String (lower_char c) (lower s')
  end.

(** [s.endswith(suffix)] *)
Definition endswith (s suffix : string) : bool :=
  let n := String.length s in
  let k := String.length suffix in
  ((k <=? n)%nat && String.eqb (substring (n - k) k s) suffix).

(** [str(z)] for an [int], as an f-string field formats it. *)
Definition str_of_int (z : Z) : string := NilZero.string_of_int (Z.to_int z).

(** ** Configuration *)

(** Modelled from the spec: swcpy/swc_config.py is not among the sources.
    The configuration holds the base URL, the backoff toggle and limit and
    the bulk file format; these are the four attributes that
    [SWCClient.__init__] reads from it. *)
Record SWCConfig : Type := {
  swc_base_url : string;
  swc_backoff : bool;
  swc_backoff_max_time : Z;
  swc_bulk_file_format : string
}.

(** ** The HTTP client and its transports *)

Inductive exn_class : Type :=
  | HTTPStatusError_class
  | RequestError_class.

Definition isinstance (e : exn) (c : exn_class) : bool :=
  match e, c with
  | HTTPStatusError _ _, HTTPStatusError_class => true
  | RequestError _, RequestError_class => true
  | _, _ => false
  end.

(** [httpx_retries.Retry], with the two settings the client passes. *)
Record Retry : Type := {
  max_backoff_wait : Z;
  retry_on_exceptions : list exn_class
}.

Inductive transport : Type :=
  | DefaultTransport
  | RetryTransport (retry : Retry).

(** [httpx.Client] *)
Record Client : Type := {
  client_base_url : string;
  client_transport : transport
}.

Record SWCClient : Type := {
  base_url : string;
  backoff : bool;
  backoff_max_time : Z;
  bulk_file_format : string;
  BULK_FILE_NAMES : gmap string string;
  http_client : Client
}.

Definition HEALTH_CHECK_ENDPOINT : string := "/".
Definition LIST_LEAGUES_ENDPOINT : string := "/v0/leagues/".
Definition LIST_PLAYERS_ENDPOINT : string := "/v0/players/".
Definition LIST_PERFORMANCES_ENDPOINT : string := "/v0/performances/".
Definition LIST_TEAMS_ENDPOINT : string := "/v0/teams/".
Definition GET_COUNTS_ENDPOINT : string := "/v0/counts/".

Definition BULK_FILE_BASE_URL : string :=
  "https://raw.githubusercontent.com/evrins/hands-on-api-data/main/bulk/".

(** The table of logical file names, before the extension is added. *)
Definition BULK_FILE_NAMES_init : gmap string string :=
  <["players" := "player_data"]>
  (<["leagues" := "league_data"]>
  (<["performances" := "performance_data"]>
  (<["teams" := "team_data"]>
  (<["team_players" := "team_player_data"]> ∅)))).

Definition bulk_file_ext (format : string) : string :=
  if String.eqb (lower format) "parquet" then ".parquet" else ".csv".

(** [SWCClient.__init__] *)
Definition SWCClient_init (cfg : SWCConfig) : SWCClient :=
  let base_url := swc_base_url cfg in
  let backoff := swc_backoff cfg in
  let backoff_max_time := swc_backoff_max_time cfg in
  let bulk_file_format := swc_bulk_file_format cfg in
  let http_client :=
    if backoff then
      let exp_retry :=
        {| max_backoff_wait := backoff_max_time;
           retry_on_exceptions := [RequestError_class; HTTPStatusError_class] |} in
      {| client_base_url := base_url;
         client_transport := RetryTransport exp_retry |}
    else
      {| client_base_url := base_url; client_transport := DefaultTransport |} in
  let ext := bulk_file_ext bulk_file_format in
  {| base_url := base_url;
     backoff := backoff;
     backoff_max_time := backoff_max_time;
     bulk_file_format := bulk_file_format;
     BULK_FILE_NAMES := (λ v, v +:+ ext) <$> BULK_FILE_NAMES_init;
     http_client := http_client |}.

(** A keyword argument that the caller may leave out. *)
Inductive kwarg : Type :=
  | Omitted
  | Passed (v : pyval).

Definition or_default (dflt : pyval) (a : kwarg) : pyval :=
  match a with
  | Omitted => dflt
  | Passed v => v
  end.

(** ** Typed records built from JSON *)

(** The interface of a schema class: its constructor takes the keyword
    arguments, that is, the items of the unpacked mapping. *)
Class BaseModel (pyfloat A : Type) : Type :=
  model_init : list (string * json pyfloat) → result A.
#[global] Hint Mode BaseModel - ! : typeclass_instances.

(** [kwargs[name]] for a required field. *)
Fixpoint assoc {V : Type} (name : string) (kwargs : list (string * V))
  : option V :=
  match kwargs with
  | [] => None
  | (k, v) :: rest => if String.eqb k name then Some v else assoc name rest
  end.

(** What lies outside the client and is taken as given: the float and
    timestamp types of the validation layer with the way it reads a
    timestamp from its text and widens an integer where a float is
    declared; the hosts behind the network, as a function from the
    attempts made so far and the request at hand to what comes back;
    httpx_retries' default retry budget and the status codes its policy
    retries on. *)
Class Environment : Type := {
  pyfloat : Type;
  timestamp : Type;
  parse_timestamp : string → option timestamp;
  float_of_int : Z → pyfloat;
  net : list request → request → outcome pyfloat;
  retry_total : nat;
  retry_status : Z → bool
}.

Section SWC.
Context `{!Environment}.

Definition to_result (o : outcome pyfloat) : result (Response pyfloat) :=
  match o with
  | Responds r => Ok r
  | Fails e => Raise e
  end.

Definition attempted (req : request) (w : world) : world :=
  {| heap := heap w; calls := calls w; wire := wire w ++ [req] |}.

Definition called (req : request) (w : world) : world :=
  {| heap := heap w; calls := calls w ++ [req]; wire := wire w |}.

(** One attempt on the wire. *)
Definition send (req : request) : M (Response pyfloat) := λ w,
  (to_result (net (wire w) req), attempted req w).

Definition is_retryable (r : Retry) (o : outcome pyfloat) : bool :=
  match o with
  | Fails e => existsb (isinstance e) (retry_on_exceptions r)
  | Responds resp => retry_status (status_code resp)
  end.

(** The retrying transport: an attempt, and while the policy calls the
    outcome retryable and the budget is not used up, another one. *)
Fixpoint retry_send (budget : nat) (r : Retry) (req : request)
  : M (Response pyfloat) := λ w,
  let o := net (wire w) req in
  let w' := attempted req w in
  match budget with
  | O => (to_result o, w')
  | S budget' =>
      if is_retryable r o then retry_send budget' r req w'
      else (to_result o, w')
  end.

Definition transport_send (t : transport) (req : request)
  : M (Response pyfloat) :=
  match t with
  | DefaultTransport => send req
  | RetryTransport r => retry_send retry_total r req
  end.

(** [httpx.Client.get(url, params=params)].  httpx reads the mapping it
    is given to build the query string and leaves it as it is. *)
Definition Client_get (c : Client) (url : string) (params : option loc)
  : M (Response pyfloat) := λ w,
  let req := {| req_entry := ViaClient (client_base_url c);
                req_url := url;
                req_params := params ≫= λ l, deref l w;
                req_follow_redirects := false |} in
  transport_send (client_transport c) req (called req w).

(** A request sent with redirects followed: an answer that is a
    redirect with a target is followed by a request on the target, until
    an answer is none or an attempt fails; when the answer to the request
    after [budget] redirects is a redirect again, httpx gives up. *)
Fixpoint follow (budget : nat) (req : request) : M (Response pyfloat) := λ w,
  let w' := attempted req w in
  match net (wire w) req with
  | Fails e => (Raise e, w')
  | Responds r =>
      match has_redirect_location r with
      | None => (Ok r, w')
      | Some target =>
          match budget with
          | O => (Raise TooManyRedirects, w')
          | S budget' => follow budget' (redirected req target) w'
          end
      end
  end.

(** [httpx.get(url, follow_redirects=follow_redirects)] *)
Definition httpx_get (url : string) (follow_redirects : bool)
  : M (Response pyfloat) := λ w,
  let req := {| req_entry := ViaModule;
                req_url := url;
                req_params := None;
                req_follow_redirects := follow_redirects |} in
  if follow_redirects then follow DEFAULT_MAX_REDIRECTS req (called req w)
  else send req (called req w).

(** [response.json()] *)
Definition Response_json (r : Response pyfloat) : M (json pyfloat) :=
  match resp_json r with
  | Some j => mret j
  | None => raise JSONDecodeError
  end.

(** Truth value of the [params] argument: [None] and the empty dict are
    false. *)
Definition truthy (params : option loc) (w : world) : bool :=
  match params with
  | None => false
  | Some l =>
      match deref l w with
      | Some d => negb (bool_decide (d = ∅))
      | None => false
      end
  end.

(** [{k: v for k, v in params.items() if v is not None}] *)
Definition strip_None (d : pydict) : pydict :=
  filter (λ kv, is_not_None kv.2 = true) d.

(** [SWCClient.call_api].  The debug message after the GET formats
    [response.json()], so the body is decoded before the response is
    returned. *)
Definition call_api (self : SWCClient) (endpoint : string)
  (params : option loc) : M (Response pyfloat) :=
  params ← (λ w,
    if truthy params w then
      match params ≫= λ l, deref l w with
      | Some d => (l' ← new_dict (strip_None d); mret (Some l')) w
      | None => (Ok params, w)
      end
    else (Ok params, w));
  try_except
    (response ← Client_get (http_client self) endpoint params;
     _ ← Response_json response;
     mret response)
    (λ e, match e with
          | HTTPStatusError _ _ => Some (raise e)
          | RequestError _ => Some (raise e)
          | _ => None
          end).

(** [SWCClient.get_health_check] *)
Definition get_health_check (self : SWCClient) : M (Response pyfloat) :=
  call_api self HEALTH_CHECK_ENDPOINT None.

(** The constructor called on the unpacked [it]: only a mapping can be
    unpacked into keyword arguments. *)
Definition construct {A : Type} `{!BaseModel pyfloat A} (it : json pyfloat)
  : result A :=
  match it with
  | JObj members => model_init members
  | _ => Raise TypeError
  end.

(** The elements that [for it in j] visits: the items of a list, the
    keys of a dict, the characters of a string. *)
Definition iterate (j : json pyfloat) : result (list (json pyfloat)) :=
  match j with
  | JArr items => Ok items
  | JObj members => Ok (map (λ kv, JStr kv.1) members)
  | JStr s => Ok (map (λ c, JStr (String c EmptyString)) (list_ascii_of_string s))
  | _ => Raise TypeError
  end.

(** The comprehension over [response.json()] that constructs one record
    per element. *)
Definition records {A : Type} `{!BaseModel pyfloat A} (response : Response pyfloat)
  : M (list A) :=
  j ← Response_json response;
  items ← lift_result (iterate j);
  lift_result (comprehend construct items).

(** The constructor called on the unpacked [response.json()]. *)
Definition record {A : Type} `{!BaseModel pyfloat A} (response : Response pyfloat)
  : M A :=
  j ← Response_json response;
  lift_result (construct j).


(** ** The schema classes *)

(** Modelled from the spec: swcpy/schemas.py is not among the sources.
    The records follow the data model table of the spec (all fields
    required, a nested list may be empty but not missing, a missing field
    or a value of the wrong type fails the whole construction), with the
    field names of the payloads in the test fixtures. *)
Record Performance : Type := {
  performance_id : Z;
  performance_player_id : Z;
  week_number : string;
  fantasy_points : pyfloat;
  performance_last_changed_date : timestamp
}.

Record Player : Type := {
  player_id : Z;
  gsis_id : string;
  first_name : string;
  last_name : string;
  position : string;
  player_last_changed_date : timestamp;
  performances : list Performance
}.

Record Team : Type := {
  team_league_id : Z;
  team_id : Z;
  team_name : string;
  team_last_changed_date : timestamp;
  players : list Player
}.

Record League : Type := {
  league_id : Z;
  league_name : string;
  scoring_type : string;
  league_last_changed_date : timestamp;
  teams : list Team
}.

Record Counts : Type := {
  league_count : Z;
  team_count : Z;
  player_count : Z
}.

Definition required (name : string) (kwargs : list (string * json pyfloat))
  : result (json pyfloat) :=
  match assoc name kwargs with
  | Some v => Ok v
  | None => Raise (ValidationError name)
  end.

Definition int_field (name : string) (kwargs : list (string * json pyfloat))
  : result Z :=
  v ← required name kwargs;
  match v with
  | JInt z => Ok z
  | _ => Raise (ValidationError name)
  end.

Definition str_field (name : string) (kwargs : list (string * json pyfloat))
  : result string :=
  v ← required name kwargs;
  match v with
  | JStr s => Ok s
  | _ => Raise (ValidationError name)
  end.

Definition float_field (name : string) (kwargs : list (string * json pyfloat))
  : result pyfloat :=
  v ← required name kwargs;
  match v with
  | JFloat f => Ok f
  | JInt z => Ok (float_of_int z)
  | _ => Raise (ValidationError name)
  end.

Definition timestamp_field (name : string)
  (kwargs : list (string * json pyfloat)) : result timestamp :=
  v ← required name kwargs;
  match v with
  | JStr s =>
      match parse_timestamp s with
      | Some t => Ok t
      | None => Raise (ValidationError name)
      end
  | _ => Raise (ValidationError name)
  end.

(** A nested list field: every element is validated by the nested
    model, in order. *)
Definition list_field {A : Type}
  (init : list (string * json pyfloat) → result A) (name : string)
  (kwargs : list (string * json pyfloat)) : result (list A) :=
  v ← required name kwargs;
  match v with
  | JArr items =>
      comprehend
        (λ it, match it with
               | JObj members => init members
               | _ => Raise (ValidationError name)
               end)
        items
  | _ => Raise (ValidationError name)
  end.

Definition Performance_init (kwargs : list (string * json pyfloat))
  : result Performance :=
  a ← int_field "performance_id" kwargs;
  b ← int_field "player_id" kwargs;
  c ← str_field "week_number" kwargs;
  d ← float_field "fantasy_points" kwargs;
  e ← timestamp_field "last_changed_date" kwargs;
  Ok {| performance_id := a; performance_player_id := b; week_number := c;
        fantasy_points := d; performance_last_changed_date := e |}.

Definition Player_init (kwargs : list (string * json pyfloat))
  : result Player :=
  a ← int_field "player_id" kwargs;
  b ← str_field "gsis_id" kwargs;
  c ← str_field "first_name" kwargs;
  d ← str_field "last_name" kwargs;
  e ← str_field "position" kwargs;
  f ← timestamp_field "last_changed_date" kwargs;
  g ← list_field Performance_init "performances" kwargs;
  Ok {| player_id := a; gsis_id := b; first_name := c; last_name := d;
        position := e; player_last_changed_date := f; performances := g |}.

Definition Team_init (kwargs : list (string * json pyfloat)) : result Team :=
  a ← int_field "league_id" kwargs;
  b ← int_field "team_id" kwargs;
  c ← str_field "team_name" kwargs;
  d ← timestamp_field "last_changed_date" kwargs;
  e ← list_field Player_init "players" kwargs;
  Ok {| team_league_id := a; team_id := b; team_name := c;
        team_last_changed_date := d; players := e |}.

Definition League_init (kwargs : list (string * json pyfloat))
  : result League :=
  a ← int_field "league_id" kwargs;
  b ← str_field "league_name" kwargs;
  c ← str_field "scoring_type" kwargs;
  d ← timestamp_field "last_changed_date" kwargs;
  e ← list_field Team_init "teams" kwargs;
  Ok {| league_id := a; league_name := b; scoring_type := c;
        league_last_changed_date := d; teams := e |}.

Definition Counts_init (kwargs : list (string * json pyfloat))
  : result Counts :=
  a ← int_field "league_count" kwargs;
  b ← int_field "team_count" kwargs;
  c ← int_field "player_count" kwargs;
  Ok {| league_count := a; team_count := b; player_count := c |}.

#[global] Instance Performance_model : BaseModel pyfloat Performance :=
  Performance_init.
#[global] Instance Player_model : BaseModel pyfloat Player := Player_init.
#[global] Instance Team_model : BaseModel pyfloat Team := Team_init.
#[global] Instance League_model : BaseModel pyfloat League := League_init.
#[global] Instance Counts_model : BaseModel pyfloat Counts := Counts_init.

(** ** The operations of the client *)

(** [SWCClient.list_leagues] *)
Definition list_leagues (self : SWCClient)
  (skip limit min_last_changed_date league_name : kwarg) : M (list League) :=
  let skip := or_default (VInt 0) skip in
  let limit := or_default (VInt 100) limit in
  let min_last_changed_date := or_default VNone min_last_changed_date in
  let league_name := or_default VNone league_name in
  params ← new_dict (list_to_map [
    ("skip", skip);
    ("limit", limit);
    ("min_last_changed_date", min_last_changed_date);
    ("league_name", league_name)]);
  response ← call_api self LIST_LEAGUES_ENDPOINT (Some params);
  records response.

(** [SWCClient.get_league_by_id] *)
Definition get_league_by_id (self : SWCClient) (league_id : Z) : M League :=
  let endpoint_url := LIST_LEAGUES_ENDPOINT +:+ str_of_int league_id in
  response ← call_api self endpoint_url None;
  record response.

(** [SWCClient.get_counts] *)
Definition get_counts (self : SWCClient) : M Counts :=
  response ← call_api self GET_COUNTS_ENDPOINT None;
  record response.

(** [SWCClient.list_teams] *)
Definition list_teams (self : SWCClient)
  (skip limit min_last_changed_date team_name league_id : kwarg)
  : M (list Team) :=
  let skip := or_default (VInt 0) skip in
  let limit := or_default (VInt 100) limit in
  let min_last_changed_date := or_default VNone min_last_changed_date in
  let team_name := or_default VNone team_name in
  let league_id := or_default VNone league_id in
  params ← new_dict (list_to_map [
    ("skip", skip);
    ("limit", limit);
    ("min_last_changed_date", min_last_changed_date);
    ("team_name", team_name);
    ("league_id", league_id)]);
  response ← call_api self LIST_TEAMS_ENDPOINT (Some params);
  records response.

(** [SWCClient.list_players] *)
Definition list_players (self : SWCClient)
  (skip limit min_last_changed_date first_name last_name : kwarg)
  : M (list Player) :=
  let skip := or_default (VInt 0) skip in
  let limit := or_default (VInt 100) limit in
  let min_last_changed_date := or_default VNone min_last_changed_date in
  let first_name := or_default VNone first_name in
  let last_name := or_default VNone last_name in
  params ← new_dict (list_to_map [
    ("skip", skip);
    ("limit", limit);
    ("min_last_changed_date", min_last_changed_date);
    ("first_name", first_name);
    ("last_name", last_name)]);
  response ← call_api self LIST_PLAYERS_ENDPOINT (Some params);
  records response.

(** [SWCClient.get_player_by_id] *)
Definition get_player_by_id (self : SWCClient) (player_id : Z) : M Player :=
  let endpoint_url := LIST_PLAYERS_ENDPOINT +:+ str_of_int player_id in
  response ← call_api self endpoint_url None;
  record response.

(** [SWCClient.list_performances] *)
Definition list_performances (self : SWCClient)
  (skip limit min_last_changed_date : kwarg) : M (list Performance) :=
  let skip := or_default (VInt 0) skip in
  let limit := or_default (VInt 100) limit in
  let min_last_changed_date := or_default VNone min_last_changed_date in
  params ← new_dict (list_to_map [
    ("skip", skip);
    ("limit", limit);
    ("min_last_changed_date", min_last_changed_date)]);
  response ← call_api self LIST_PERFORMANCES_ENDPOINT (Some params);
  records response.

(** [SWCClient.__get_bulk_file] *)
Definition __get_bulk_file (self : SWCClient) (key : string) : M string :=
  name ← match BULK_FILE_NAMES self !! key with
         | Some name => mret name
         | None => raise (KeyError key)
         end;
  let player_file_path := BULK_FILE_BASE_URL +:+ name in
  response ← httpx_get player_file_path true;
  mret (content response).

Definition get_bulk_player_file (self : SWCClient) : M string :=
  __get_bulk_file self "players".

Definition get_bulk_league_file (self : SWCClient) : M string :=
  __get_bulk_file self "leagues".

Definition get_bulk_performance_file (self : SWCClient) : M string :=
  __get_bulk_file self "performances".

Definition get_bulk_team_file (self : SWCClient) : M string :=
  __get_bulk_file self "teams".

Definition get_bulk_team_player_file (self : SWCClient) : M string :=
  __get_bulk_file self "team_players".

(** ** Vocabulary of the statements *)

(** The parameter mapping that leaves with the request. *)
Definition outgoing (params : option loc) (w : world) : option pydict :=
  strip_None <$> (params ≫= λ l, deref l w).

(** The GET that [Client_get] places, given the store it reads. *)
Definition client_request (c : Client) (url : string) (params : option loc)
  (w : world) : request :=
  {| req_entry := ViaClient (client_base_url c);
     req_url := url;
     req_params := params ≫= λ l, deref l w;
     req_follow_redirects := false |}.

(** The GET that [call_api] places on the client. *)
Definition api_request (self : SWCClient) (endpoint : string)
  (params : option loc) (w : world) : request :=
  {| req_entry := ViaClient (client_base_url (http_client self));
     req_url := endpoint;
     req_params := outgoing params w;
     req_follow_redirects := false |}.

(** The GET that a bulk file operation places on httpx. *)
Definition bulk_request (file_name : string) : request :=
  {| req_entry := ViaModule;
     req_url := BULK_FILE_BASE_URL +:+ file_name;
     req_params := None;
     req_follow_redirects := true |}.


(** The attempts [more] that come after [req] each follow a redirect:
    each goes to the target that the answer to the one before it names. *)
Inductive redirects_only : list request → request → list request → Prop :=
  | no_more (h : list request) (req : request) : redirects_only h req []
  | one_more (h : list request) (req : request) (r : Response pyfloat)
      (target : string) (more : list request) :
      net h req = Responds r →
      has_redirect_location r = Some target →
      redirects_only (h ++ [req]) (redirected req target) more →
      redirects_only h req (redirected req target :: more).

(** What [call_api] makes of the outcome of the last attempt. *)
Definition decoded (o : outcome pyfloat) : result (Response pyfloat) :=
  match o with
  | Fails e => Raise e
  | Responds r =>
      match resp_json r with
      | Some _ => Ok r
      | None => Raise JSONDecodeError
      end
  end.

(** The store after [call_api] was given [params]. *)
Definition grown (params : option loc) (w : world) : list pydict :=
  if truthy params w then
    match params ≫= λ l, deref l w with
    | Some d => heap w ++ [strip_None d]
    | None => heap w
    end
  else heap w.

(** The transport answers every request with the same response, as a
    mock with a fixed return value does. *)
Definition mocked (resp : Response pyfloat) : Prop :=
  ∀ h req, net h req = Responds resp.

(** The transport raises whatever is requested first in world [w]. *)
Definition first_attempt_raises (w : world) (e : exn) : Prop :=
  ∀ req, net (wire w) req = Fails e.

(** A computation that raises [e] after exactly one attempt on the wire. *)
Definition fails_at_once {A : Type} (m : M A) (w : world) (e : exn) : Prop :=
  (m w).1 = Raise e ∧ ∃ req : request, wire (m w).2 = (wire w ++ [req])%list.

(** The shape shared by the four list operations: a parameter dict is
    built, the call is made, the body is turned into records. *)
Definition listing {A : Type} `{!BaseModel pyfloat A} (self : SWCClient)
  (endpoint : string) (d : pydict) : M (list A) :=
  params ← new_dict d;
  response ← call_api self endpoint (Some params);
  records response.

(** The shape shared by the operations that fetch one record. *)
Definition fetching {A : Type} `{!BaseModel pyfloat A} (self : SWCClient)
  (endpoint : string) : M A :=
  response ← call_api self endpoint None;
  record response.

(** The records that a response body holds. *)
Definition records_of {A : Type} `{!BaseModel pyfloat A}
  (response : Response pyfloat) : result (list A) :=
  match resp_json response with
  | None => Raise JSONDecodeError
  | Some j => items ← iterate j; comprehend construct items
  end.

Definition record_of {A : Type} `{!BaseModel pyfloat A}
  (response : Response pyfloat) : result A :=
  match resp_json response with
  | None => Raise JSONDecodeError
  | Some j => construct j
  end.

(** The five bulk file operations, each with its logical file name. *)
Definition bulk_operations : list ((SWCClient → M string) * string) :=
  [ (get_bulk_player_file, "player_data");
    (get_bulk_league_file, "league_data");
    (get_bulk_performance_file, "performance_data");
    (get_bulk_team_file, "team_data");
    (get_bulk_team_player_file, "team_player_data") ].

(** The keys of the file name table. *)
Definition bulk_keys : list string :=
  ["players"; "leagues"; "performances"; "teams"; "team_players"].

(** Records that construct from the items, one by one and in order, are
    what is returned. *)
Definition returns_each {A : Type} `{!BaseModel pyfloat A}
  (items : list (json pyfloat)) (res : result (list A)) : Prop :=
  ∀ recs : list A,
    Forall2 (λ it r, construct it = Ok r) items recs → res = Ok recs.

(** A computation started in [w] assembles a parameter mapping, the
    first dict it creates, that binds [k] to [v]. *)
Definition assembles {A : Type} (m : M A) (w : world) (k : string) (v : pyval)
  : Prop :=
  ∃ d : pydict, heap (m w).2 !! length (heap w) = Some d ∧ d !! k = Some v.

(** A computation started in [w] places one call on httpx, whose
    parameters bind [k] to [v]. *)
Definition sends {A : Type} (m : M A) (w : world) (k : string) (v : pyval)
  : Prop :=
  ∃ (req : request) (d : pydict),
    calls (m w).2 = calls w ++ [req] ∧ req_params req = Some d ∧
    d !! k = Some v.

(** The result holds one record per item, in the order of the items, and
    is a sequence whenever every item can be constructed. *)
Definition built_in_order {A : Type} `{!BaseModel pyfloat A}
  (items : list (json pyfloat)) (res : result (list A)) : Prop :=
  (∀ recs : list A, res = Ok recs →
     length recs = length items ∧
     ∀ (i : nat) (it : json pyfloat), items !! i = Some it →
       ∃ r : A, recs !! i = Some r ∧ construct it = Ok r) ∧
  ((∀ it : json pyfloat, it ∈ items → ∃ r : A, construct it = Ok r) →
   ∃ recs : list A, res = Ok recs).

(** The part of a path after its last slash. *)
Fixpoint last_segment (acc s : string) : string :=
  match s with
  | EmptyString => acc
  | String c s' =>
      if Ascii.eqb c "/" then last_segment EmptyString s'
      else last_segment (acc +:+ String c EmptyString) s'
  end.

(** ** Further vocabulary *)

(** The one call that a computation started in [w] places on the client
    goes to [url] and carries exactly the pairs of [args] whose value is
    not [None]. *)
Definition places {A : Type} (m : M A) (w : world) (self : SWCClient)
  (url : string) (args : list (string * pyval)) : Prop :=
  ∃ d : pydict,
    calls (m w).2 =
      calls w ++ [{| req_entry := ViaClient (client_base_url (http_client self));
                     req_url := url;
                     req_params := Some d;
                     req_follow_redirects := false |}] ∧
    ∀ (k : string) (v : pyval), d !! k = Some v ↔ (k, v) ∈ args ∧ v ≠ VNone.

(** The one call that a computation started in [w] places on the client
    goes to [url] without parameters, and the store stays as it is. *)
Definition places_bare {A : Type} (m : M A) (w : world) (self : SWCClient)
  (url : string) : Prop :=
  calls (m w).2 =
    calls w ++ [{| req_entry := ViaClient (client_base_url (http_client self));
                   req_url := url;
                   req_params := None;
                   req_follow_redirects := false |}] ∧
  heap (m w).2 = heap w.

(** What a list operation makes of a body that is not an array: nothing
    of an empty object or string, a [TypeError] of anything else. *)
Definition body_result {A : Type} (res : result (list A)) (j : json pyfloat)
  : Prop :=
  match j with
  | JArr _ => True
  | JObj [] => res = Ok []
  | JStr EmptyString => res = Ok []
  | _ => res = Raise TypeError
  end.

(** The exception of the first item that cannot be constructed is the
    result. *)
Definition stops_at_first_failure {A : Type} `{!BaseModel pyfloat A}
  (res : result (list A)) (items : list (json pyfloat)) : Prop :=
  ∀ (good : list (json pyfloat)) (bad : json pyfloat)
    (rest : list (json pyfloat)) (e : exn),
    items = good ++ bad :: rest →
    (∀ it : json pyfloat, it ∈ good → ∃ r : A, construct it = Ok r) →
    construct (A:=A) bad = Raise e →
    res = Raise e.

(** A computation started in [w] makes exactly one attempt on the wire. *)
Definition one_attempt {A : Type} (m : M A) (w : world) : Prop :=
  ∃ req : request, wire (m w).2 = wire w ++ [req].

End SWC.

(** ** Sample data, after the test suite *)

(** The league payload of the test fixtures. *)
Definition sample_league_data {pyfloat : Type} : json pyfloat :=
  JObj [ ("league_id", JInt 1);
         ("league_name", JStr "Test League");
         ("scoring_type", JStr "standard");
         ("last_changed_date", JStr "2024-01-01T00:00:00");
         ("teams", JArr []) ].

(** A second league, to tell positions apart. *)
Definition other_league_data {pyfloat : Type} : json pyfloat :=
  JObj [ ("league_id", JInt 2);
         ("league_name", JStr "Other League");
         ("scoring_type", JStr "ppr");
         ("last_changed_date", JStr "2024-02-01T00:00:00");
         ("teams", JArr []) ].

(** The configuration of the client fixtures: backoff disabled. *)
Definition sample_config : SWCConfig :=
  {| swc_base_url := "https://api.test.com";
     swc_backoff := false;
     swc_backoff_max_time := 30;
     swc_bulk_file_format := "csv" |}.

(** The configuration of the integration tests: backoff enabled. *)
Definition integration_config : SWCConfig :=
  {| swc_base_url := "https://api.test.com";
     swc_backoff := true;
     swc_backoff_max_time := 10;
     swc_bulk_file_format := "csv" |}.

Definition config_with_format (format : string) : SWCConfig :=
  {| swc_base_url := "https://api.example.com";
     swc_backoff := true;
     swc_backoff_max_time := 30;
     swc_bulk_file_format := format |}.

(** A float as mantissa and binary exponent, for the sample runs. *)
Definition sample_float : Type := Z * Z.

Definition sample_retry_status (status : Z) : bool :=
  existsb (Z.eqb status) [429; 502; 503; 504].

(** An environment around a given network. *)
Definition sample_environment
  (network : list request → request → outcome sample_float) : Environment :=
  {| pyfloat := sample_float;
     timestamp := string;
     parse_timestamp := Some;
     float_of_int := λ z, (z, 0);
     net := network;
     retry_total := 10;
     retry_status := sample_retry_status |}.

(** A mock with a fixed return value. *)
Definition always (resp : Response sample_float)
  : list request → request → outcome sample_float :=
  λ _ _, Responds resp.

(** A mock that raises on the first call and returns afterwards. *)
Definition raises_then (e : exn) (resp : Response sample_float)
  : list request → request → outcome sample_float :=
  λ h _, match h with [] => Fails e | _ => Responds resp end.

Definition ok_response : Response sample_float :=
  {| status_code := 200;
     content := "{status: ok}";
     resp_json := Some (JObj [("status", JStr "ok")]);
     location := None |}.

Definition leagues_response : Response sample_float :=
  {| status_code := 200;
     content := "[...]";
     resp_json := Some (JArr [sample_league_data]);
     location := None |}.

Definition two_leagues_response : Response sample_float :=
  {| status_code := 200;
     content := "[...]";
     resp_json := Some (JArr [sample_league_data; other_league_data]);
     location := None |}.

Definition league_response : Response sample_float :=
  {| status_code := 200;
     content := "{...}";
     resp_json := Some sample_league_data;
     location := None |}.


(** The records that the two league payloads make. *)
Definition sample_league
  (network : list request → request → outcome sample_float)
  : League (H:=sample_environment network) :=
  @Build_League (sample_environment network)
    1 "Test League" "standard" "2024-01-01T00:00:00" [].

Definition other_league
  (network : list request → request → outcome sample_float)
  : League (H:=sample_environment network) :=
  @Build_League (sample_environment network)
    2 "Other League" "ppr" "2024-02-01T00:00:00" [].

(** The mirror that a redirect names. *)
Definition mirror_url : string :=
  "https://mirror.example.com/bulk/player_data.csv".

(** A redirect to the mirror. *)
Definition moved_response : Response sample_float :=
  {| status_code := 302;
     content := "Moved";
     resp_json := None;
     location := Some mirror_url |}.

Definition data_response : Response sample_float :=
  {| status_code := 200;
     content := "player_id,first_name,last_name";
     resp_json := None;
     location := None |}.

(** A host that redirects the first request and answers the next. *)
Definition redirects_once (final : Response sample_float)
  : list request → request → outcome sample_float :=
  λ h _, match h with [] => Responds moved_response | _ => Responds final end.

Definition server_error : exn := HTTPStatusError 500 "Internal Server Error".

(** An error payload with a JSON body, as an API sends with a 404. *)
Definition error_payload_response : Response sample_float :=
  {| status_code := 404;
     content := "{detail: Not Found}";
     resp_json := Some (JObj [("detail", JStr "Not Found")]);
     location := None |}.

(** A success status with a body that is not JSON. *)
Definition plain_response : Response sample_float :=
  {| status_code := 200;
     content := "API health check successful";
     resp_json := None;
     location := None |}.

(** A league payload without its id. *)
Definition nameless_league_data {pyfloat : Type} : json pyfloat :=
  JObj [ ("league_name", JStr "No Id League");
         ("scoring_type", JStr "standard");
         ("last_changed_date", JStr "2024-03-01T00:00:00");
         ("teams", JArr []) ].

Definition mixed_leagues_response : Response sample_float :=
  {| status_code := 200;
     content := "[...]";
     resp_json :=
       Some (JArr [sample_league_data; nameless_league_data;
                   other_league_data]);
     location := None |}.

(** A caller's mapping without unset parameters. *)
Definition clean_params : pydict :=
  list_to_map [("param", VStr "value"); ("skip", VInt 0)].

Definition clean_world : world :=
  {| heap := [clean_params]; calls := []; wire := [] |}.

Definition empty_world : world := {| heap := []; calls := []; wire := [] |}.

(** A caller's mapping with an unset parameter. *)
Definition sample_params : pydict :=
  list_to_map [("param1", VStr "value"); ("param2", VNone)].

Definition sample_world : world :=
  {| heap := [sample_params]; calls := []; wire := [] |}.

(** ** Properties *)

Section Properties.
Context `{!Environment}.

Lemma replicate_snoc (req : request) (n : nat) :
  replicate n req ++ [req] = replicate (S n) req.
Proof.
  induction n as [|n IH]; simpl; [done|]. by rewrite IH.
Qed.

(** The retrying transport makes between one and [budget + 1] attempts,
    all of the same request, and surfaces the outcome of the last. *)
Lemma retry_send_run (budget : nat) (r : Retry) (req : request) (w : world) :
  ∃ n : nat, (n ≤ budget)%nat ∧
    retry_send budget r req w =
      (to_result (net (wire w ++ replicate n req) req),
       {| heap := heap w; calls := calls w;
          wire := wire w ++ replicate (S n) req |}).
Proof.
  revert w. induction budget as [|b IH]; intros w.
  - exists 0%nat. split; [lia|]. simpl. by rewrite app_nil_r.
  - simpl. destruct (is_retryable r (net (wire w) req)) eqn:E.
    + destruct (IH (attempted req w)) as (n & Hn & Hrun).
      exists (S n). split; [lia|]. rewrite Hrun. simpl.
      rewrite <- !app_assoc. done.
    + exists 0%nat. split; [lia|]. simpl. by rewrite app_nil_r.
Qed.

Lemma transport_send_run (t : transport) (req : request) (w : world) :
  ∃ n : nat, (n ≤ retry_total)%nat ∧
    (t = DefaultTransport → n = 0%nat) ∧
    transport_send t req w =
      (to_result (net (wire w ++ replicate n req) req),
       {| heap := heap w; calls := calls w;
          wire := wire w ++ replicate (S n) req |}).
Proof.
  destruct t as [|r]; simpl.
  - exists 0%nat. split; [lia|]. split; [done|].
    unfold send, attempted. simpl. by rewrite app_nil_r.
  - destruct (retry_send_run retry_total r req w) as (n & Hn & Hrun).
    exists n. by repeat split.
Qed.

(** The request that leaves carries the stripped mapping, whether or not
    [call_api] rebuilt it. *)
Lemma rebound_params (params : option loc) (w : world) :
  (if truthy params w then Some (strip_None <$> (params ≫= λ l, deref l w))
   else Some (params ≫= λ l, deref l w)) = Some (outgoing params w).
Proof.
  unfold outgoing, truthy. destruct params as [l|]; simpl; [|done].
  destruct (deref l w) as [d|]; simpl; [|done].
  case_bool_decide as Hd; simpl; [|done].
  subst d. unfold strip_None. by rewrite map_filter_empty.
Qed.

Lemma Client_get_run (c : Client) (url : string) (params : option loc)
  (w : world) :
  ∃ n : nat, (n ≤ retry_total)%nat ∧
    (client_transport c = DefaultTransport → n = 0%nat) ∧
    Client_get c url params w =
      (to_result (net (wire w ++ replicate n (client_request c url params w))
                      (client_request c url params w)),
       {| heap := heap w;
          calls := calls w ++ [client_request c url params w];
          wire := wire w ++ replicate (S n) (client_request c url params w) |}).
Proof.
  unfold Client_get. fold (client_request c url params w).
  destruct (transport_send_run (client_transport c)
              (client_request c url params w)
              (called (client_request c url params w) w))
    as (n & Hn & H0 & Hrun).
  exists n. by rewrite Hrun.
Qed.

(** What the body of [call_api] makes of a call on the client. *)
Lemma call_api_body (self : SWCClient) (endpoint : string)
  (params : option loc) (w : world) :
  ∃ n : nat, (n ≤ retry_total)%nat ∧
    (client_transport (http_client self) = DefaultTransport → n = 0%nat) ∧
    try_except
      (response ← Client_get (http_client self) endpoint params;
       _ ← Response_json response;
       mret response)
      (λ e, match e with
            | HTTPStatusError _ _ => Some (raise e)
            | RequestError _ => Some (raise e)
            | _ => None
            end) w =
      (decoded
         (net (wire w ++
                 replicate n (client_request (http_client self) endpoint params w))
              (client_request (http_client self) endpoint params w)),
       {| heap := heap w;
          calls := calls w ++ [client_request (http_client self) endpoint params w];
          wire := wire w ++
                  replicate (S n)
                    (client_request (http_client self) endpoint params w) |}).
Proof.
  destruct (Client_get_run (http_client self) endpoint params w)
    as (n & Hn & H0 & Hrun).
  exists n. split; [done|]. split; [done|].
  unfold try_except, mbind, M_bind. rewrite Hrun.
  destruct (net _ _) as [r|e]; simpl.
  - unfold Response_json. by destruct (resp_json r).
  - by destruct e.
Qed.

(** [call_api] in one equation: one call on the client, carrying the
    stripped parameters; one to [retry_total + 1] attempts on the wire,
    one only on the default transport; the decoded outcome of the last
    attempt as result; and a store that has at most grown. *)
Lemma call_api_run (self : SWCClient) (endpoint : string)
  (params : option loc) (w : world) :
  ∃ n : nat, (n ≤ retry_total)%nat ∧
    (client_transport (http_client self) = DefaultTransport → n = 0%nat) ∧
    call_api self endpoint params w =
      (decoded (net (wire w ++ replicate n (api_request self endpoint params w))
                    (api_request self endpoint params w)),
       {| heap := grown params w;
          calls := calls w ++ [api_request self endpoint params w];
          wire := wire w ++ replicate (S n) (api_request self endpoint params w) |}).
Proof.
  pose proof (rebound_params params w) as Hout.
  unfold call_api, grown. unfold mbind at 1, M_bind at 1.
  destruct (truthy params w) eqn:Ht.
  - unfold truthy in Ht. destruct params as [l|]; [|done]. simpl in *.
    destruct (deref l w) as [d|] eqn:Hd; [|done]. simpl in *.
    injection Hout as Hout.
    set (w1 := {| heap := heap w ++ [strip_None d];
                  calls := calls w; wire := wire w |}).
    destruct (call_api_body self endpoint (Some (length (heap w))) w1)
      as (n & Hn & H0 & Hrun).
    exists n. split; [done|]. split; [done|].
    assert (client_request (http_client self) endpoint
              (Some (length (heap w))) w1
            = api_request self endpoint (Some l) w) as Hreq.
    { unfold client_request, api_request, deref, w1. simpl.
      rewrite lookup_app_r by lia. rewrite Nat.sub_diag. simpl.
      by rewrite Hout. }
    rewrite Hreq in Hrun. exact Hrun.
  - injection Hout as Hout.
    destruct (call_api_body self endpoint params w) as (n & Hn & H0 & Hrun).
    exists n. split; [done|]. split; [done|].
    assert (client_request (http_client self) endpoint params w
            = api_request self endpoint params w) as Hreq.
    { unfold client_request, api_request. by rewrite Hout. }
    rewrite Hreq in Hrun. exact Hrun.
Qed.

(** *** Parameter filtering *)

Lemma strip_None_lookup (d : pydict) (k : string) (v : pyval) :
  strip_None d !! k = Some v ↔ d !! k = Some v ∧ v ≠ VNone.
Proof.
  unfold strip_None. rewrite map_lookup_filter_Some. simpl.
  split; intros [Hk Hv]; split; try done.
  - intros ->. done.
  - by destruct v.
Qed.

(** C1. For every endpoint and every parameter mapping passed to
    [call_api], the request that is placed on the client, and every
    attempt that reaches the wire, carries a mapping without any key
    bound to [None], in which every key of the caller's mapping with
    another value is kept with that value, and nothing else. *)
Theorem call_api_strips_unset (self : SWCClient) (endpoint : string)
  (l : loc) (d : pydict) (w : world) :
  deref l w = Some d →
  ∃ (req : request) (d' : pydict) (n : nat),
    calls (call_api self endpoint (Some l) w).2 = calls w ++ [req] ∧
    wire (call_api self endpoint (Some l) w).2 = wire w ++ replicate (S n) req ∧
    req_url req = endpoint ∧
    req_params req = Some d' ∧
    (∀ k, d' !! k ≠ Some VNone) ∧
    (∀ k v, v ≠ VNone → d !! k = Some v → d' !! k = Some v) ∧
    (∀ k v, d' !! k = Some v → d !! k = Some v).
Proof.
  intros Hd.
  destruct (call_api_run self endpoint (Some l) w) as (n & _ & _ & Hrun).
  exists (api_request self endpoint (Some l) w), (strip_None d), n.
  rewrite Hrun. simpl. unfold outgoing. simpl. rewrite Hd. simpl.
  repeat split; try done.
  - intros k Hk. apply strip_None_lookup in Hk as [_ Hk]. done.
  - intros k v Hv Hk. by apply strip_None_lookup.
  - intros k v Hk. by apply strip_None_lookup in Hk as [Hk _].
Qed.

(** *** The caller's mapping *)

Lemma grown_lookup (params : option loc) (w : world) (l : loc) (d : pydict) :
  heap w !! l = Some d → grown params w !! l = Some d.
Proof.
  intros Hl. unfold grown.
  destruct (truthy params w); [|done].
  destruct (params ≫= λ l0, deref l0 w); [|done].
  by apply lookup_app_l_Some.
Qed.

(** C10. [call_api] never mutates a mapping of the caller: whatever
    the parameters and whether the call returns or raises, every
    reference that held a mapping before the call holds the same mapping
    after it, None-valued entries included. *)
Theorem call_api_keeps_caller_mapping (self : SWCClient) (endpoint : string)
  (params : option loc) (l : loc) (d : pydict) (w : world) :
  deref l w = Some d →
  deref l (call_api self endpoint params w).2 = Some d ∧
  ∃ fresh : list pydict,
    heap (call_api self endpoint params w).2 = heap w ++ fresh.
Proof.
  intros Hd.
  destruct (call_api_run self endpoint params w) as (n & _ & _ & Hrun).
  rewrite Hrun. unfold deref. simpl. split; [by apply grown_lookup|].
  unfold grown. destruct (truthy params w).
  - destruct (params ≫= λ l0, deref l0 w) as [d0|].
    + by exists [strip_None d0].
    + exists []. by rewrite app_nil_r.
  - exists []. by rewrite app_nil_r.
Qed.

(** *** Errors without backoff *)

Lemma init_default_transport (cfg : SWCConfig) :
  swc_backoff cfg = false →
  client_transport (http_client (SWCClient_init cfg)) = DefaultTransport.
Proof. intros Hb. unfold SWCClient_init. simpl. by rewrite Hb. Qed.

Lemma call_api_fails_at_once (cfg : SWCConfig) (endpoint : string)
  (params : option loc) (w1 w : world) (e : exn) :
  swc_backoff cfg = false →
  first_attempt_raises w e →
  wire w1 = wire w →
  ∃ (w' : world) (req : request),
    call_api (SWCClient_init cfg) endpoint params w1 = (Raise e, w') ∧
    wire w' = wire w ++ [req].
Proof.
  intros Hb He Hw.
  destruct (call_api_run (SWCClient_init cfg) endpoint params w1)
    as (n & _ & H0 & Hrun).
  rewrite (H0 (init_default_transport cfg Hb)) in Hrun. simpl in Hrun.
  rewrite app_nil_r, Hw, He in Hrun. simpl in Hrun.
  eexists _, _. split; [exact Hrun|]. done.
Qed.

Lemma listing_fails_at_once {A : Type} `{!BaseModel pyfloat A}
  (cfg : SWCConfig) (endpoint : string) (d : pydict) (w : world) (e : exn) :
  swc_backoff cfg = false →
  first_attempt_raises w e →
  fails_at_once (listing (A:=A) (SWCClient_init cfg) endpoint d) w e.
Proof.
  intros Hb He. unfold fails_at_once, listing, mbind, M_bind, new_dict.
  cbv beta iota.
  set (w1 := {| heap := heap w ++ [d]; calls := calls w; wire := wire w |}).
  destruct (call_api_fails_at_once cfg endpoint (Some (length (heap w))) w1 w e)
    as (w' & req & Hrun & Hw'); [done..|].
  rewrite Hrun. simpl. eauto.
Qed.

Lemma fetching_fails_at_once {A : Type} `{!BaseModel pyfloat A}
  (cfg : SWCConfig) (endpoint : string) (w : world) (e : exn) :
  swc_backoff cfg = false →
  first_attempt_raises w e →
  fails_at_once (fetching (A:=A) (SWCClient_init cfg) endpoint) w e.
Proof.
  intros Hb He. unfold fails_at_once, fetching, mbind, M_bind.
  destruct (call_api_fails_at_once cfg endpoint None w w e)
    as (w' & req & Hrun & Hw'); [done..|].
  rewrite Hrun. simpl. eauto.
Qed.

(** C3. With backoff disabled in the configuration, an exception raised
    by the transport on the first attempt of a client call, an HTTP
    status error or a network-level error in particular, reaches the
    caller as it is, and that attempt is the only one on the wire.  This
    holds for [call_api] and for each operation built on it. *)
Theorem no_backoff_fails_at_once (cfg : SWCConfig) (w : world) (e : exn) :
  swc_backoff cfg = false →
  first_attempt_raises w e →
  let self := SWCClient_init cfg in
  (∀ endpoint params, fails_at_once (call_api self endpoint params) w e) ∧
  fails_at_once (get_health_check self) w e ∧
  (∀ skip limit date name,
     fails_at_once (list_leagues self skip limit date name) w e) ∧
  (∀ league_id, fails_at_once (get_league_by_id self league_id) w e) ∧
  fails_at_once (get_counts self) w e ∧
  (∀ skip limit date name league_id,
     fails_at_once (list_teams self skip limit date name league_id) w e) ∧
  (∀ skip limit date first last,
     fails_at_once (list_players self skip limit date first last) w e) ∧
  (∀ player_id, fails_at_once (get_player_by_id self player_id) w e) ∧
  (∀ skip limit date,
     fails_at_once (list_performances self skip limit date) w e).
Proof.
  intros Hb He self.
  assert (∀ endpoint params, fails_at_once (call_api self endpoint params) w e)
    as Hcall.
  { intros endpoint params.
    destruct (call_api_fails_at_once cfg endpoint params w w e)
      as (w' & req & Hrun & Hw'); [done..|].
    unfold fails_at_once, self. rewrite Hrun. simpl. eauto. }
  split; [exact Hcall|].
  split; [apply Hcall|].
  split; [intros; by apply listing_fails_at_once|].
  split; [intros; by apply fetching_fails_at_once|].
  split; [by apply fetching_fails_at_once|].
  split; [intros; by apply listing_fails_at_once|].
  split; [intros; by apply listing_fails_at_once|].
  split; [intros; by apply fetching_fails_at_once|].
  intros; by apply listing_fails_at_once.
Qed.

(** *** Bulk files *)

Lemma init_bulk_name (cfg : SWCConfig) (key logical : string) :
  BULK_FILE_NAMES_init !! key = Some logical →
  BULK_FILE_NAMES (SWCClient_init cfg) !! key =
    Some (logical +:+ bulk_file_ext (swc_bulk_file_format cfg)).
Proof. intros Hk. simpl. by rewrite lookup_fmap, Hk. Qed.

Lemma bulk_keys_names (key : string) :
  key ∈ bulk_keys → ∃ logical, BULK_FILE_NAMES_init !! key = Some logical.
Proof.
  unfold bulk_keys. rewrite !elem_of_cons, elem_of_nil.
  intros [->|[->|[->|[->|[->|[]]]]]]; eexists; vm_compute; reflexivity.
Qed.

Lemma bulk_file_ext_cases (format : string) :
  (lower format = "parquet" ∧ bulk_file_ext format = ".parquet") ∨
  (lower format ≠ "parquet" ∧ bulk_file_ext format = ".csv").
Proof.
  unfold bulk_file_ext.
  destruct (String.eqb_spec (lower format) "parquet"); [left|right]; done.
Qed.

Lemma length_append (s t : string) :
  String.length (s +:+ t) = (String.length s + String.length t)%nat.
Proof. induction s as [|c s IH]; simpl; [done|]. by rewrite IH. Qed.

Lemma substring_whole (s : string) : substring 0 (String.length s) s = s.
Proof. induction s as [|c s IH]; simpl; [done|]. by rewrite IH. Qed.

Lemma endswith_append (s suffix : string) :
  endswith (s +:+ suffix) suffix = true.
Proof.
  unfold endswith. rewrite length_append.
  replace (String.length s + String.length suffix - String.length suffix)%nat
    with (String.length s) by lia.
  rewrite (proj2 (Nat.leb_le _ _)) by lia. simpl.
  apply String.eqb_eq.
  induction s as [|c s IH]; simpl; [apply substring_whole | exact IH].
Qed.

(** C2, as the code has it.  The format is lowered before it is compared:
    when the lowered value is [parquet] (so for [parquet], [Parquet],
    [PARQUET]) each of the five file name lookups ends in [.parquet]; for
    every other value, [CSV] included, each ends in [.csv]. *)
Theorem bulk_file_names_extension (cfg : SWCConfig) (key : string) :
  key ∈ bulk_keys →
  ∃ name : string,
    BULK_FILE_NAMES (SWCClient_init cfg) !! key = Some name ∧
    (lower (swc_bulk_file_format cfg) = "parquet" →
       endswith name ".parquet" = true) ∧
    (lower (swc_bulk_file_format cfg) ≠ "parquet" →
       endswith name ".csv" = true).
Proof.
  intros Hkey. destruct (bulk_keys_names key Hkey) as [logical Hl].
  eexists. split; [by apply init_bulk_name|].
  destruct (bulk_file_ext_cases (swc_bulk_file_format cfg)) as [[Hf ->]|[Hf ->]].
  - split; [intros _; apply endswith_append | done].
  - split; [done | intros _; apply endswith_append].
Qed.

(** *** Redirects *)

Lemma follow_frame (budget : nat) (req : request) (w : world) :
  heap (follow budget req w).2 = heap w ∧
  calls (follow budget req w).2 = calls w.
Proof.
  revert req w. induction budget as [|b IH]; intros req w; simpl;
    destruct (net (wire w) req) as [r|e]; try done;
    destruct (has_redirect_location r) as [target|]; try done.
  destruct (IH (redirected req target) (attempted req w)) as [-> ->]. done.
Qed.

(** An attempt that fails, or an answer that is no redirect, ends the
    call after that attempt. *)
Lemma follow_stops (budget : nat) (req : request) (w : world) :
  (∀ e, net (wire w) req = Fails e →
     follow budget req w = (Raise e, attempted req w)) ∧
  (∀ r, net (wire w) req = Responds r → has_redirect_location r = None →
     follow budget req w = (Ok r, attempted req w)).
Proof.
  split.
  - intros e He. destruct budget; simpl; by rewrite He.
  - intros r Hr Hloc. destruct budget; simpl; by rewrite Hr, Hloc.
Qed.

Lemma follow_goes_on (budget : nat) (req : request) (w : world)
  (r : Response pyfloat) (target : string) :
  net (wire w) req = Responds r →
  has_redirect_location r = Some target →
  follow (S budget) req w
    = follow budget (redirected req target) (attempted req w).
Proof. intros Hr Hloc. simpl. by rewrite Hr, Hloc. Qed.

(** The attempts of a call that follows redirects: the request itself,
    then at most [budget] more, each of them following a redirect. *)
Lemma follow_trail (budget : nat) (req : request) (w : world) :
  ∃ more : list request,
    wire (follow budget req w).2 = wire w ++ req :: more ∧
    (length more ≤ budget)%nat ∧
    redirects_only (wire w) req more.
Proof.
  revert req w. induction budget as [|b IH]; intros req w; simpl.
  - exists []. split; [|split; [simpl; lia | constructor]].
    destruct (net (wire w) req) as [r|e]; [|done].
    by destruct (has_redirect_location r).
  - destruct (net (wire w) req) as [r|e] eqn:Hr;
      [|exists []; split; [done | split; [simpl; lia | constructor]]].
    destruct (has_redirect_location r) as [target|] eqn:Hloc;
      [|exists []; split; [done | split; [simpl; lia | constructor]]].
    destruct (IH (redirected req target) (attempted req w))
      as (more & Hwire & Hlen & Htrail).
    exists (redirected req target :: more). rewrite Hwire. simpl.
    rewrite <- app_assoc. split; [done|]. split; [lia|].
    by apply (one_more _ _ r).
Qed.



(** One bulk download in one equation: one call on [httpx.get], sent with
    redirects followed, and the content of what comes back. *)
Lemma get_bulk_file_run (cfg : SWCConfig) (key logical : string) (w : world) :
  BULK_FILE_NAMES_init !! key = Some logical →
  __get_bulk_file (SWCClient_init cfg) key w =
    (response ←
       (follow DEFAULT_MAX_REDIRECTS
          (bulk_request (logical +:+ bulk_file_ext (swc_bulk_file_format cfg)))
          (called
             (bulk_request (logical +:+ bulk_file_ext (swc_bulk_file_format cfg)))
             w)).1;
     Ok (content response),
     (follow DEFAULT_MAX_REDIRECTS
        (bulk_request (logical +:+ bulk_file_ext (swc_bulk_file_format cfg)))
        (called
           (bulk_request (logical +:+ bulk_file_ext (swc_bulk_file_format cfg)))
           w)).2).
Proof.
  intros Hk. unfold __get_bulk_file.
  rewrite (init_bulk_name cfg key logical Hk).
  unfold mbind at 1 2, M_bind at 1 2, mret, M_ret, httpx_get. cbv beta iota.
  fold (bulk_request (logical +:+ bulk_file_ext (swc_bulk_file_format cfg))).
  by destruct (follow _ _ _) as [[r|e] w'].
Qed.

Lemma bulk_operations_keys (op : SWCClient → M string) (logical : string) :
  (op, logical) ∈ bulk_operations →
  ∃ key, BULK_FILE_NAMES_init !! key = Some logical ∧
         ∀ self, op self = __get_bulk_file self key.
Proof.
  unfold bulk_operations. rewrite !elem_of_cons, elem_of_nil.
  intros [H1|[H1|[H1|[H1|[H1|[]]]]]]; injection H1 as -> ->.
  - exists "players". split; [vm_compute; reflexivity | done].
  - exists "leagues". split; [vm_compute; reflexivity | done].
  - exists "performances". split; [vm_compute; reflexivity | done].
  - exists "teams". split; [vm_compute; reflexivity | done].
  - exists "team_players". split; [vm_compute; reflexivity | done].
Qed.


(** C8. Each of the five bulk file operations places one GET through
    [httpx.get], to the bulk file base URL followed by the logical file
    name ([player_data], [league_data], [performance_data], [team_data],
    [team_player_data]) and the configured extension, with redirects
    followed: that request is the first attempt on the wire, a redirect
    answer to it is followed by an attempt on its target, and every
    further attempt follows a redirect.  The retrying transport is out of
    the way: with backoff configured or not, a failed attempt and an
    answer that is no redirect, whatever its status, are not tried
    again. *)
Theorem bulk_file_request (cfg : SWCConfig)
  (op : SWCClient → M string) (logical : string) (w : world) :
  (op, logical) ∈ bulk_operations →
  let req :=
    {| req_entry := ViaModule;
       req_url := BULK_FILE_BASE_URL +:+ logical +:+
                  bulk_file_ext (swc_bulk_file_format cfg);
       req_params := None;
       req_follow_redirects := true |} in
  calls (op (SWCClient_init cfg) w).2 = calls w ++ [req] ∧
  (∃ more : list request,
     wire (op (SWCClient_init cfg) w).2 = wire w ++ req :: more ∧
     (length more ≤ DEFAULT_MAX_REDIRECTS)%nat ∧
     redirects_only (wire w) req more) ∧
  (∀ (r : Response pyfloat) (target : string),
     net (wire w) req = Responds r →
     has_redirect_location r = Some target →
     ∃ more : list request,
       wire (op (SWCClient_init cfg) w).2
         = wire w ++ req :: redirected req target :: more) ∧
  (∀ r : Response pyfloat,
     net (wire w) req = Responds r →
     has_redirect_location r = None →
     wire (op (SWCClient_init cfg) w).2 = wire w ++ [req]) ∧
  (∀ e : exn,
     net (wire w) req = Fails e →
     wire (op (SWCClient_init cfg) w).2 = wire w ++ [req]).
Proof.
  intros Hop req.
  destruct (bulk_operations_keys op logical Hop) as (key & Hk & ->).
  rewrite (get_bulk_file_run cfg key logical w Hk). cbn [fst snd].
  change (bulk_request (logical +:+ bulk_file_ext (swc_bulk_file_format cfg)))
    with req.
  split; [|split; [|split; [|split]]].
  - by rewrite (proj2 (follow_frame DEFAULT_MAX_REDIRECTS req (called req w))).
  - apply (follow_trail DEFAULT_MAX_REDIRECTS req (called req w)).
  - intros r target Hr Hloc.
    change DEFAULT_MAX_REDIRECTS with (S 19).
    rewrite (follow_goes_on 19 req (called req w) r target Hr Hloc).
    destruct (follow_trail 19 (redirected req target)
                (attempted req (called req w)))
      as (more & Hwire & _ & _).
    exists more. rewrite Hwire. simpl. by rewrite <- app_assoc.
  - intros r Hr Hloc.
    by rewrite (proj2 (follow_stops DEFAULT_MAX_REDIRECTS req (called req w))
                  r Hr Hloc).
  - intros e He.
    by rewrite (proj1 (follow_stops DEFAULT_MAX_REDIRECTS req (called req w))
                  e He).
Qed.

(** *** The list operations *)

Lemma records_run {A : Type} `{!BaseModel pyfloat A}
  (response : Response pyfloat) (w : world) :
  records (A:=A) response w = (records_of response, w).
Proof.
  unfold records, records_of, Response_json, mbind, M_bind, lift_result.
  destruct (resp_json response) as [j|]; simpl; [|done].
  by destruct (iterate j).
Qed.

Lemma record_run {A : Type} `{!BaseModel pyfloat A}
  (response : Response pyfloat) (w : world) :
  record (A:=A) response w = (record_of response, w).
Proof.
  unfold record, record_of, Response_json, mbind, M_bind, lift_result.
  by destruct (resp_json response).
Qed.

(** The request of a list operation that assembled the mapping [d]. *)
Lemma listing_run {A : Type} `{!BaseModel pyfloat A} (self : SWCClient)
  (endpoint : string) (d : pydict) (w : world) :
  ∃ (n : nat) (fresh : list pydict), (n ≤ retry_total)%nat ∧
    (client_transport (http_client self) = DefaultTransport → n = 0%nat) ∧
    listing (A:=A) self endpoint d w =
      (response ←
         decoded (net (wire w ++
                         replicate n
                           {| req_entry := ViaClient (client_base_url (http_client self));
                              req_url := endpoint;
                              req_params := Some (strip_None d);
                              req_follow_redirects := false |})
                      {| req_entry := ViaClient (client_base_url (http_client self));
                         req_url := endpoint;
                         req_params := Some (strip_None d);
                         req_follow_redirects := false |});
       records_of response,
       {| heap := heap w ++ d :: fresh;
          calls := calls w ++
            [{| req_entry := ViaClient (client_base_url (http_client self));
                req_url := endpoint;
                req_params := Some (strip_None d);
                req_follow_redirects := false |}];
          wire := wire w ++
            replicate (S n)
              {| req_entry := ViaClient (client_base_url (http_client self));
                 req_url := endpoint;
                 req_params := Some (strip_None d);
                 req_follow_redirects := false |} |}).
Proof.
  unfold listing, mbind at 1 2, M_bind at 1 2, new_dict. cbv beta iota.
  set (w1 := {| heap := heap w ++ [d]; calls := calls w; wire := wire w |}).
  destruct (call_api_run self endpoint (Some (length (heap w))) w1)
    as (n & Hn & H0 & Hrun).
  assert (deref (length (heap w)) w1 = Some d) as Hd.
  { unfold deref, w1. simpl. rewrite lookup_app_r by lia.
    by rewrite Nat.sub_diag. }
  assert (api_request self endpoint (Some (length (heap w))) w1 =
          {| req_entry := ViaClient (client_base_url (http_client self));
             req_url := endpoint;
             req_params := Some (strip_None d);
             req_follow_redirects := false |}) as Hreq.
  { unfold api_request, outgoing. simpl. by rewrite Hd. }
  rewrite Hreq in Hrun. rewrite Hrun. clear Hrun Hreq.
  assert (∃ fresh, grown (Some (length (heap w))) w1 = heap w ++ d :: fresh)
    as [fresh Hfresh].
  { unfold grown, truthy. simpl. rewrite Hd. unfold w1. simpl.
    destruct (bool_decide (d = ∅)); simpl.
    - by exists [].
    - exists [strip_None d]. by rewrite <- app_assoc. }
  exists n, fresh. split; [done|]. split; [done|].
  rewrite Hfresh. simpl.
  destruct (decoded _) as [response|e]; simpl; [|done].
  by rewrite records_run.
Qed.

Lemma listing_assembles {A : Type} `{!BaseModel pyfloat A} (self : SWCClient)
  (endpoint : string) (d : pydict) (w : world) (k : string) (v : pyval) :
  d !! k = Some v →
  assembles (listing (A:=A) self endpoint d) w k v.
Proof.
  intros Hk. destruct (listing_run (A:=A) self endpoint d w)
    as (n & fresh & _ & _ & Hrun).
  exists d. rewrite Hrun. simpl. split; [|done].
  rewrite lookup_app_r by lia. by rewrite Nat.sub_diag.
Qed.

Lemma listing_sends {A : Type} `{!BaseModel pyfloat A} (self : SWCClient)
  (endpoint : string) (d : pydict) (w : world) (k : string) (v : pyval) :
  d !! k = Some v → v ≠ VNone →
  sends (listing (A:=A) self endpoint d) w k v.
Proof.
  intros Hk Hv. destruct (listing_run (A:=A) self endpoint d w)
    as (n & fresh & _ & _ & Hrun).
  eexists _, (strip_None d). rewrite Hrun. simpl.
  split; [done|]. split; [done|]. by apply strip_None_lookup.
Qed.

(** C7. When the caller leaves out the pagination arguments, each of the
    four list operations assembles a parameter mapping that binds [skip]
    to 0 and [limit] to 100, whatever the other arguments are, and sends
    both with its request. *)
Theorem pagination_defaults (self : SWCClient) (w : world) :
  (∀ date name,
     let m := list_leagues self Omitted Omitted date name in
     assembles m w "skip" (VInt 0) ∧ assembles m w "limit" (VInt 100) ∧
     sends m w "skip" (VInt 0) ∧ sends m w "limit" (VInt 100)) ∧
  (∀ date name league_id,
     let m := list_teams self Omitted Omitted date name league_id in
     assembles m w "skip" (VInt 0) ∧ assembles m w "limit" (VInt 100) ∧
     sends m w "skip" (VInt 0) ∧ sends m w "limit" (VInt 100)) ∧
  (∀ date first last,
     let m := list_players self Omitted Omitted date first last in
     assembles m w "skip" (VInt 0) ∧ assembles m w "limit" (VInt 100) ∧
     sends m w "skip" (VInt 0) ∧ sends m w "limit" (VInt 100)) ∧
  (∀ date,
     let m := list_performances self Omitted Omitted date in
     assembles m w "skip" (VInt 0) ∧ assembles m w "limit" (VInt 100) ∧
     sends m w "skip" (VInt 0) ∧ sends m w "limit" (VInt 100)).
Proof.
  repeat split; intros;
    first [ apply listing_assembles | apply listing_sends; [|done] ];
    rewrite !list_to_map_cons;
    first [ by rewrite lookup_insert_eq
          | by rewrite lookup_insert_ne, lookup_insert_eq ].
Qed.

(** *** Records from response bodies *)

Lemma comprehend_in_order {A B : Type} (f : A → result B) (xs : list A)
  (ys : list B) :
  comprehend f xs = Ok ys →
  length ys = length xs ∧
  ∀ (i : nat) (x : A), xs !! i = Some x → ∃ y : B, ys !! i = Some y ∧ f x = Ok y.
Proof.
  revert ys. induction xs as [|x xs IH]; intros ys; simpl.
  - intros [= <-]. split; [done|]. intros i x Hi. by destruct i.
  - destruct (f x) as [y|e] eqn:Hfx; [|done].
    destruct (comprehend f xs) as [ys'|e]; [|done].
    intros [= <-]. destruct (IH ys' eq_refl) as [Hlen Hnth].
    split; [simpl; by rewrite Hlen|].
    intros [|i] x' Hi; simpl in *.
    + injection Hi as <-. eauto.
    + by apply Hnth.
Qed.

Lemma comprehend_total {A B : Type} (f : A → result B) (xs : list A) :
  (∀ x : A, x ∈ xs → ∃ y : B, f x = Ok y) →
  ∃ ys : list B, comprehend f xs = Ok ys.
Proof.
  induction xs as [|x xs IH]; intros Hall; simpl; [by eexists|].
  destruct (Hall x) as [y ->]; [apply list_elem_of_here|].
  destruct IH as [ys ->]; [|by eexists].
  intros x' Hx'. apply Hall. by apply list_elem_of_further.
Qed.

Lemma listing_mocked {A : Type} `{!BaseModel pyfloat A} (self : SWCClient)
  (endpoint : string) (d : pydict) (w : world) (resp : Response pyfloat) :
  mocked resp →
  (listing (A:=A) self endpoint d w).1 = records_of resp.
Proof.
  intros Hnet. destruct (listing_run (A:=A) self endpoint d w)
    as (n & fresh & _ & _ & Hrun).
  rewrite Hrun, Hnet. simpl. unfold records_of.
  destruct (resp_json resp) eqn:Hbody; simpl; by rewrite ?Hbody.
Qed.

Lemma listing_in_order {A : Type} `{!BaseModel pyfloat A} (self : SWCClient)
  (endpoint : string) (d : pydict) (w : world) (resp : Response pyfloat)
  (items : list (json pyfloat)) :
  mocked resp →
  resp_json resp = Some (JArr items) →
  built_in_order items (listing (A:=A) self endpoint d w).1.
Proof.
  intros Hnet Hbody. rewrite (listing_mocked self endpoint d w resp Hnet).
  unfold records_of. rewrite Hbody. simpl. split.
  - intros recs. apply comprehend_in_order.
  - apply comprehend_total.
Qed.

Lemma comprehend_each {A B : Type} (f : A → result B) (xs : list A)
  (ys : list B) :
  Forall2 (λ x y, f x = Ok y) xs ys → comprehend f xs = Ok ys.
Proof.
  induction 1 as [|x y xs ys Hxy _ IH]; simpl; [done|].
  by rewrite Hxy, IH.
Qed.

Lemma listing_returns_each {A : Type} `{!BaseModel pyfloat A}
  (self : SWCClient) (endpoint : string) (d : pydict) (w : world)
  (resp : Response pyfloat) (items : list (json pyfloat)) :
  mocked resp →
  resp_json resp = Some (JArr items) →
  returns_each items (listing (A:=A) self endpoint d w).1.
Proof.
  intros Hnet Hbody recs Hrecs.
  rewrite (listing_mocked self endpoint d w resp Hnet).
  unfold records_of. rewrite Hbody. simpl. by apply comprehend_each.
Qed.

(** C9. For each of the four list operations and every response body
    that is a JSON array, the records constructed from the elements of
    the array, one per element and in the order of the array, are the
    sequence that is returned; a sequence that is returned has the length
    of the array and its i-th element is the record constructed from the
    i-th element of the array. *)
Theorem list_operations_in_order (self : SWCClient) (w : world)
  (resp : Response pyfloat) (items : list (json pyfloat)) :
  mocked resp →
  resp_json resp = Some (JArr items) →
  (∀ skip limit date name,
     returns_each items (list_leagues self skip limit date name w).1 ∧
     built_in_order items (list_leagues self skip limit date name w).1) ∧
  (∀ skip limit date name league_id,
     returns_each items
       (list_teams self skip limit date name league_id w).1 ∧
     built_in_order items
       (list_teams self skip limit date name league_id w).1) ∧
  (∀ skip limit date first last,
     returns_each items
       (list_players self skip limit date first last w).1 ∧
     built_in_order items
       (list_players self skip limit date first last w).1) ∧
  (∀ skip limit date,
     returns_each items (list_performances self skip limit date w).1 ∧
     built_in_order items (list_performances self skip limit date w).1).
Proof.
  intros Hnet Hbody.
  split; [|split; [|split]]; intros; split;
    first [ by eapply listing_returns_each | by eapply listing_in_order ].
Qed.

(** C5. [list_leagues(skip=10, limit=50, league_name="Test")] places a
    GET on the leagues collection path whose query parameters are exactly
    [skip=10], [limit=50] and [league_name="Test"], without
    [min_last_changed_date]; against a response that holds the one league
    of the test fixtures it returns a sequence of length one whose element
    is named [Test League]. *)
Theorem list_leagues_sample (self : SWCClient) (w : world)
  (resp : Response pyfloat) (t : timestamp) :
  mocked resp →
  resp_json resp = Some (JArr [sample_league_data]) →
  parse_timestamp "2024-01-01T00:00:00" = Some t →
  let m := list_leagues self (Passed (VInt 10)) (Passed (VInt 50)) Omitted
             (Passed (VStr "Test")) in
  let sent : pydict :=
    list_to_map [("skip", VInt 10); ("limit", VInt 50);
                 ("league_name", VStr "Test")] in
  calls (m w).2 =
    calls w ++ [{| req_entry := ViaClient (client_base_url (http_client self));
                   req_url := "/v0/leagues/";
                   req_params := Some sent;
                   req_follow_redirects := false |}] ∧
  sent !! "min_last_changed_date" = None ∧
  ∃ lg : League, (m w).1 = Ok [lg] ∧ league_name lg = "Test League".
Proof.
  intros Hnet Hbody Hts m sent.
  destruct (listing_run (A:=League) self LIST_LEAGUES_ENDPOINT
              (list_to_map [("skip", VInt 10); ("limit", VInt 50);
                            ("min_last_changed_date", VNone);
                            ("league_name", VStr "Test")]) w)
    as (n & fresh & _ & _ & Hrun).
  assert (strip_None
            (list_to_map [("skip", VInt 10); ("limit", VInt 50);
                          ("min_last_changed_date", VNone);
                          ("league_name", VStr "Test")]) = sent) as Hsent
    by (vm_compute; reflexivity).
  rewrite Hsent in Hrun.
  change (m w) with
    (listing (A:=League) self LIST_LEAGUES_ENDPOINT
       (list_to_map [("skip", VInt 10); ("limit", VInt 50);
                     ("min_last_changed_date", VNone);
                     ("league_name", VStr "Test")]) w).
  set (run := listing (A:=League) self LIST_LEAGUES_ENDPOINT _ w) in *.
  rewrite Hnet in Hrun. unfold decoded in Hrun. rewrite Hbody in Hrun.
  simpl in Hrun. unfold records_of in Hrun. rewrite Hbody in Hrun.
  simpl in Hrun.
  unfold model_init, League_model, League_init, timestamp_field in Hrun.
  simpl in Hrun. rewrite Hts in Hrun. simpl in Hrun.
  rewrite Hrun. simpl.
  split; [done|]. split; [vm_compute; reflexivity|].
  eexists. split; [reflexivity|]. done.
Qed.

(** *** Fetching one record *)

Lemma fetching_run {A : Type} `{!BaseModel pyfloat A} (self : SWCClient)
  (endpoint : string) (w : world) :
  ∃ n : nat, (n ≤ retry_total)%nat ∧
    (client_transport (http_client self) = DefaultTransport → n = 0%nat) ∧
    fetching (A:=A) self endpoint w =
      (response ←
         decoded (net (wire w ++
                         replicate n
                           {| req_entry := ViaClient (client_base_url (http_client self));
                              req_url := endpoint;
                              req_params := None;
                              req_follow_redirects := false |})
                      {| req_entry := ViaClient (client_base_url (http_client self));
                         req_url := endpoint;
                         req_params := None;
                         req_follow_redirects := false |});
       record_of response,
       {| heap := heap w;
          calls := calls w ++
            [{| req_entry := ViaClient (client_base_url (http_client self));
                req_url := endpoint;
                req_params := None;
                req_follow_redirects := false |}];
          wire := wire w ++
            replicate (S n)
              {| req_entry := ViaClient (client_base_url (http_client self));
                 req_url := endpoint;
                 req_params := None;
                 req_follow_redirects := false |} |}).
Proof.
  unfold fetching, mbind at 1, M_bind at 1.
  destruct (call_api_run self endpoint None w) as (n & Hn & H0 & Hrun).
  exists n. split; [done|]. split; [done|].
  rewrite Hrun. unfold api_request, outgoing, grown. simpl.
  destruct (decoded _) as [response|e]; simpl; [|done].
  by rewrite record_run.
Qed.

Lemma append_cons (c : ascii) (s t : string) :
  String c s +:+ t = String c (s +:+ t).
Proof. reflexivity. Qed.

Lemma append_snoc (acc s : string) (c : ascii) :
  (acc +:+ String c EmptyString) +:+ s = acc +:+ String c s.
Proof.
  induction acc as [|a acc IH]; [done|].
  by rewrite !append_cons, IH.
Qed.

Lemma append_empty (s : string) : s +:+ EmptyString = s.
Proof.
  induction s as [|c s IH]; [done|]. by rewrite append_cons, IH.
Qed.

Lemma last_segment_uint (d : Decimal.uint) (acc : string) :
  last_segment acc (NilEmpty.string_of_uint d) =
    acc +:+ NilEmpty.string_of_uint d.
Proof.
  revert acc. induction d as [|d IH|d IH|d IH|d IH|d IH|d IH|d IH|d IH|d IH|d IH];
    intros acc; simpl;
    [by rewrite append_empty | by rewrite IH, append_snoc ..].
Qed.

(** The decimal text of an integer is one path segment. *)
Lemma last_segment_str_of_int (z : Z) (acc : string) :
  last_segment acc (str_of_int z) = acc +:+ str_of_int z.
Proof.
  unfold str_of_int, NilZero.string_of_int, NilZero.string_of_uint.
  destruct (Z.to_int z) as [d|d].
  - destruct d; try apply last_segment_uint. done.
  - simpl.
    destruct d;
      [simpl; by rewrite append_snoc
      | by rewrite last_segment_uint, append_snoc ..].
Qed.

Lemma League_init_id (members : list (string * json pyfloat)) (z : Z)
  (lg : League) :
  assoc "league_id" members = Some (JInt z) →
  League_init members = Ok lg →
  league_id lg = z.
Proof.
  intros Hid. unfold League_init, int_field at 1, required.
  rewrite Hid. simpl.
  destruct (str_field "league_name" members); simpl; [|done].
  destruct (str_field "scoring_type" members); simpl; [|done].
  destruct (timestamp_field "last_changed_date" members); simpl; [|done].
  destruct (list_field Team_init "teams" members); simpl; [|done].
  by intros [= <-].
Qed.

(** A body with the five fields of a league, each of its type, makes a
    League that holds them. *)
Lemma League_init_valid (members : list (string * json pyfloat)) (z : Z)
  (name scoring s : string) (t : timestamp) (ts : list Team) :
  assoc "league_id" members = Some (JInt z) →
  assoc "league_name" members = Some (JStr name) →
  assoc "scoring_type" members = Some (JStr scoring) →
  assoc "last_changed_date" members = Some (JStr s) →
  parse_timestamp s = Some t →
  list_field Team_init "teams" members = Ok ts →
  League_init members =
    Ok {| league_id := z; league_name := name; scoring_type := scoring;
          league_last_changed_date := t; teams := ts |}.
Proof.
  intros Hid Hname Hscoring Hdate Hts Hteams.
  unfold League_init, int_field, str_field, timestamp_field, required.
  rewrite Hid, Hname, Hscoring, Hdate. simpl. rewrite Hts, Hteams. done.
Qed.

(** C6. For every league id, [get_league_by_id] places a single GET on
    the client, on the leagues path followed by the decimal text of the
    id as its last segment and without query parameters (a single
    attempt on the wire too, on the default transport), and returns the
    League constructed from the JSON body: for a body that holds the five
    fields of a league, the League with these fields is returned, and
    when the body's [league_id] is 1, as for [get_league_by_id(1)], the
    record returned has id 1. *)
Theorem get_league_by_id_request (self : SWCClient) (league_id0 : Z)
  (w : world) (resp : Response pyfloat) :
  mocked resp →
  let m := get_league_by_id self league_id0 in
  let req := {| req_entry := ViaClient (client_base_url (http_client self));
                req_url := "/v0/leagues/" +:+ str_of_int league_id0;
                req_params := None;
                req_follow_redirects := false |} in
  calls (m w).2 = calls w ++ [req] ∧
  (client_transport (http_client self) = DefaultTransport →
     wire (m w).2 = wire w ++ [req]) ∧
  last_segment EmptyString (req_url req) = str_of_int league_id0 ∧
  (m w).1 = record_of (A:=League) resp ∧
  (∀ (members : list (string * json pyfloat)) (z : Z)
     (name scoring s : string) (t : timestamp) (ts : list Team),
     resp_json resp = Some (JObj members) →
     assoc "league_id" members = Some (JInt z) →
     assoc "league_name" members = Some (JStr name) →
     assoc "scoring_type" members = Some (JStr scoring) →
     assoc "last_changed_date" members = Some (JStr s) →
     parse_timestamp s = Some t →
     list_field Team_init "teams" members = Ok ts →
     (m w).1 =
       Ok {| league_id := z; league_name := name; scoring_type := scoring;
             league_last_changed_date := t; teams := ts |}) ∧
  (∀ (members : list (string * json pyfloat)) (lg : League),
     resp_json resp = Some (JObj members) →
     assoc "league_id" members = Some (JInt 1) →
     (m w).1 = Ok lg →
     league_id lg = 1).
Proof.
  intros Hnet m req.
  destruct (fetching_run (A:=League) self
              (LIST_LEAGUES_ENDPOINT +:+ str_of_int league_id0) w)
    as (n & Hn & H0 & Hrun).
  change (m w) with
    (fetching (A:=League) self
       (LIST_LEAGUES_ENDPOINT +:+ str_of_int league_id0) w).
  assert ((fetching (A:=League) self
             (LIST_LEAGUES_ENDPOINT +:+ str_of_int league_id0) w).1
          = record_of (A:=League) resp) as Hres.
  { rewrite Hrun, Hnet. simpl. unfold record_of.
    destruct (resp_json resp) eqn:Hbody; simpl; by rewrite ?Hbody. }
  split; [by rewrite Hrun|].
  split; [intros Ht; rewrite Hrun, (H0 Ht); done|].
  split; [simpl; apply last_segment_str_of_int|].
  split; [exact Hres|].
  split.
  - intros members z name scoring s t ts Hbody Hid Hname Hscoring Hdate Hts
      Hteams.
    rewrite Hres. unfold record_of. rewrite Hbody. simpl.
    by apply (League_init_valid members z name scoring s t ts).
  - intros members lg Hbody Hid. rewrite Hres. unfold record_of.
    rewrite Hbody. simpl. by apply League_init_id.
Qed.

End Properties.

(** ** Further properties of the client *)

Section Further.
Context `{!Environment}.

(** *** What [call_api] returns *)

Lemma call_api_mocked (self : SWCClient) (endpoint : string)
  (params : option loc) (w : world) (resp : Response pyfloat) :
  mocked resp →
  (call_api self endpoint params w).1 = decoded (Responds resp).
Proof.
  intros Hnet.
  destruct (call_api_run self endpoint params w) as (n & _ & _ & Hrun).
  by rewrite Hrun, Hnet.
Qed.

(** X1. [call_api] decodes the body for its debug message before it
    returns, outside the reach of its [except] clauses: a response whose
    body is not JSON makes it raise [JSONDecodeError], whatever the status
    code, and [get_health_check] with it. *)
Theorem call_api_needs_json_body (self : SWCClient) (endpoint : string)
  (params : option loc) (w : world) (resp : Response pyfloat) :
  mocked resp →
  resp_json resp = None →
  (call_api self endpoint params w).1 = Raise JSONDecodeError ∧
  (get_health_check self w).1 = Raise JSONDecodeError.
Proof.
  intros Hnet Hbody. unfold get_health_check.
  rewrite !(call_api_mocked _ _ _ _ resp Hnet). simpl. by rewrite Hbody.
Qed.

(** X2. [call_api] never looks at the status code: a response with a
    JSON body is returned as it is, status 404 or 500 included, by
    [call_api] and by [get_health_check]. *)
Theorem call_api_ignores_status (self : SWCClient) (endpoint : string)
  (params : option loc) (w : world) (resp : Response pyfloat)
  (j : json pyfloat) :
  mocked resp →
  resp_json resp = Some j →
  (call_api self endpoint params w).1 = Ok resp ∧
  (get_health_check self w).1 = Ok resp.
Proof.
  intros Hnet Hbody. unfold get_health_check.
  rewrite !(call_api_mocked _ _ _ _ resp Hnet). simpl. by rewrite Hbody.
Qed.

(** *** What [call_api] does to the store *)

Lemma strip_None_clean (d : pydict) :
  (∀ k, d !! k ≠ Some VNone) → strip_None d = d.
Proof.
  intros Hclean. apply map_eq. intros k.
  destruct (d !! k) as [v|] eqn:Hk.
  - apply strip_None_lookup. split; [done|]. intros ->. by apply (Hclean k).
  - destruct (strip_None d !! k) as [v|] eqn:Hs; [|done].
    apply strip_None_lookup in Hs as [Hs _]. congruence.
Qed.

(** X3. [call_api] builds a new dict only for a mapping that is not
    empty, and then exactly one, holding the stripped mapping.  Without
    parameters, or with an empty mapping, the store stays as it is and
    the request leaves without parameters, or with the empty mapping. *)
Theorem call_api_store_effect (self : SWCClient) (endpoint : string)
  (w : world) :
  (heap (call_api self endpoint None w).2 = heap w ∧
   ∃ req, calls (call_api self endpoint None w).2 = calls w ++ [req] ∧
          req_params req = None) ∧
  (∀ l : loc, deref l w = Some ∅ →
     heap (call_api self endpoint (Some l) w).2 = heap w ∧
     ∃ req, calls (call_api self endpoint (Some l) w).2 = calls w ++ [req] ∧
            req_params req = Some ∅) ∧
  (∀ (l : loc) (d : pydict), deref l w = Some d → d ≠ ∅ →
     heap (call_api self endpoint (Some l) w).2 = heap w ++ [strip_None d]).
Proof.
  split; [|split].
  - destruct (call_api_run self endpoint None w) as (n & _ & _ & Hrun).
    rewrite Hrun. simpl. split; [done|]. by eexists.
  - intros l Hl.
    destruct (call_api_run self endpoint (Some l) w) as (n & _ & _ & Hrun).
    rewrite Hrun. unfold grown, truthy, api_request, outgoing. simpl.
    rewrite Hl. simpl. split; [done|]. eexists. split; [done|]. simpl.
    unfold strip_None. by rewrite map_filter_empty.
  - intros l d Hl Hd.
    destruct (call_api_run self endpoint (Some l) w) as (n & _ & _ & Hrun).
    rewrite Hrun. unfold grown, truthy. simpl. rewrite Hl. simpl.
    by rewrite bool_decide_false.
Qed.

(** X4. A mapping that binds no key to [None] leaves with the request
    unchanged. *)
Theorem call_api_sends_clean_mapping (self : SWCClient) (endpoint : string)
  (l : loc) (d : pydict) (w : world) :
  deref l w = Some d →
  (∀ k, d !! k ≠ Some VNone) →
  ∃ req : request,
    calls (call_api self endpoint (Some l) w).2 = calls w ++ [req] ∧
    req_url req = endpoint ∧
    req_params req = Some d.
Proof.
  intros Hl Hclean.
  destruct (call_api_run self endpoint (Some l) w) as (n & _ & _ & Hrun).
  rewrite Hrun. simpl. eexists. split; [done|]. split; [done|].
  simpl. unfold outgoing. simpl. rewrite Hl. simpl.
  by rewrite strip_None_clean.
Qed.

(** *** What the list operations send *)

Lemma listing_places {A : Type} `{!BaseModel pyfloat A} (self : SWCClient)
  (endpoint : string) (args : list (string * pyval)) (w : world) :
  NoDup args.*1 →
  places (listing (A:=A) self endpoint (list_to_map args)) w self endpoint args.
Proof.
  intros Hkeys.
  destruct (listing_run (A:=A) self endpoint (list_to_map args) w)
    as (n & fresh & _ & _ & Hrun).
  exists (strip_None (list_to_map args)). rewrite Hrun. simpl.
  split; [done|]. intros k v.
  by rewrite strip_None_lookup, <- elem_of_list_to_map.
Qed.

Ltac distinct_keys :=
  simpl;
  repeat (apply NoDup_cons; split;
          [rewrite ?elem_of_cons, elem_of_nil; intuition discriminate|]);
  apply NoDup_nil_2.

(** X5. Each list operation places one GET on its collection path, and
    the query parameters are exactly its arguments, defaults filled in,
    that are not [None]: an argument passed as [None] is dropped like one
    left out, [skip] and [limit] included. *)
Theorem list_operations_requests (self : SWCClient) (w : world) :
  (∀ skip limit date name,
     places (list_leagues self skip limit date name) w self "/v0/leagues/"
       [("skip", or_default (VInt 0) skip);
        ("limit", or_default (VInt 100) limit);
        ("min_last_changed_date", or_default VNone date);
        ("league_name", or_default VNone name)]) ∧
  (∀ skip limit date name league_id,
     places (list_teams self skip limit date name league_id) w self
       "/v0/teams/"
       [("skip", or_default (VInt 0) skip);
        ("limit", or_default (VInt 100) limit);
        ("min_last_changed_date", or_default VNone date);
        ("team_name", or_default VNone name);
        ("league_id", or_default VNone league_id)]) ∧
  (∀ skip limit date first last,
     places (list_players self skip limit date first last) w self
       "/v0/players/"
       [("skip", or_default (VInt 0) skip);
        ("limit", or_default (VInt 100) limit);
        ("min_last_changed_date", or_default VNone date);
        ("first_name", or_default VNone first);
        ("last_name", or_default VNone last)]) ∧
  (∀ skip limit date,
     places (list_performances self skip limit date) w self
       "/v0/performances/"
       [("skip", or_default (VInt 0) skip);
        ("limit", or_default (VInt 100) limit);
        ("min_last_changed_date", or_default VNone date)]).
Proof.
  repeat split; intros.
  - apply (listing_places (A:=League) self LIST_LEAGUES_ENDPOINT). distinct_keys.
  - apply (listing_places (A:=Team) self LIST_TEAMS_ENDPOINT). distinct_keys.
  - apply (listing_places (A:=Player) self LIST_PLAYERS_ENDPOINT). distinct_keys.
  - apply (listing_places (A:=Performance) self LIST_PERFORMANCES_ENDPOINT).
    distinct_keys.
Qed.

(** *** Bodies that are not arrays of objects *)

Lemma listing_body {A : Type} `{!BaseModel pyfloat A} (self : SWCClient)
  (endpoint : string) (d : pydict) (w : world) (resp : Response pyfloat)
  (j : json pyfloat) :
  mocked resp →
  resp_json resp = Some j →
  body_result (listing (A:=A) self endpoint d w).1 j.
Proof.
  intros Hnet Hbody. rewrite (listing_mocked self endpoint d w resp Hnet).
  unfold records_of. rewrite Hbody.
  destruct j as [|b|z|f|s|items|members]; simpl; try done.
  - by destruct s.
  - by destruct members as [|[k v] members].
Qed.

(** X6. When the body is JSON but not an array, a list operation does
    not fail on the status or the shape as such: it iterates over what it
    got.  A null, a boolean, a number, a string that is not empty and an
    object that is not empty (an error payload, say) end in [TypeError];
    an empty object and an empty string give the empty sequence. *)
Theorem list_operations_other_bodies (self : SWCClient) (w : world)
  (resp : Response pyfloat) (j : json pyfloat) :
  mocked resp →
  resp_json resp = Some j →
  (∀ skip limit date name,
     body_result (list_leagues self skip limit date name w).1 j) ∧
  (∀ skip limit date name league_id,
     body_result (list_teams self skip limit date name league_id w).1 j) ∧
  (∀ skip limit date first last,
     body_result (list_players self skip limit date first last w).1 j) ∧
  (∀ skip limit date,
     body_result (list_performances self skip limit date w).1 j).
Proof.
  intros Hnet Hbody. repeat split; intros; by eapply listing_body.
Qed.

Lemma comprehend_first_failure {A B : Type} (f : A → result B)
  (good : list A) (bad : A) (rest : list A) (e : exn) :
  (∀ x : A, x ∈ good → ∃ y : B, f x = Ok y) →
  f bad = Raise e →
  comprehend f (good ++ bad :: rest) = Raise e.
Proof.
  intros Hgood Hbad. induction good as [|x good IH]; simpl.
  - by rewrite Hbad.
  - destruct (Hgood x) as [y ->]; [apply list_elem_of_here|].
    rewrite IH; [done|]. intros x' Hx'. apply Hgood.
    by apply list_elem_of_further.
Qed.

Lemma listing_first_failure {A : Type} `{!BaseModel pyfloat A}
  (self : SWCClient) (endpoint : string) (d : pydict) (w : world)
  (resp : Response pyfloat) (items : list (json pyfloat)) :
  mocked resp →
  resp_json resp = Some (JArr items) →
  stops_at_first_failure (listing (A:=A) self endpoint d w).1 items.
Proof.
  intros Hnet Hbody good bad rest e -> Hgood Hbad.
  rewrite (listing_mocked self endpoint d w resp Hnet).
  unfold records_of. rewrite Hbody. simpl.
  by apply comprehend_first_failure.
Qed.

(** X7. A list operation raises the exception of the first element of
    the array that cannot be constructed, whatever comes after it: no
    partial sequence is returned. *)
Theorem list_operations_first_failure (self : SWCClient) (w : world)
  (resp : Response pyfloat) (items : list (json pyfloat)) :
  mocked resp →
  resp_json resp = Some (JArr items) →
  (∀ skip limit date name,
     stops_at_first_failure (list_leagues self skip limit date name w).1
       items) ∧
  (∀ skip limit date name league_id,
     stops_at_first_failure
       (list_teams self skip limit date name league_id w).1 items) ∧
  (∀ skip limit date first last,
     stops_at_first_failure
       (list_players self skip limit date first last w).1 items) ∧
  (∀ skip limit date,
     stops_at_first_failure (list_performances self skip limit date w).1
       items).
Proof.
  intros Hnet Hbody. repeat split; intros; by eapply listing_first_failure.
Qed.

(** *** The operations that fetch one record *)

Lemma fetching_mocked {A : Type} `{!BaseModel pyfloat A} (self : SWCClient)
  (endpoint : string) (w : world) (resp : Response pyfloat) :
  mocked resp →
  (fetching (A:=A) self endpoint w).1 = record_of resp.
Proof.
  intros Hnet.
  destruct (fetching_run (A:=A) self endpoint w) as (n & _ & _ & Hrun).
  rewrite Hrun, Hnet. simpl. unfold record_of.
  destruct (resp_json resp) eqn:Hbody; simpl; by rewrite ?Hbody.
Qed.

Lemma fetching_needs_object {A : Type} `{!BaseModel pyfloat A}
  (self : SWCClient) (endpoint : string) (w : world)
  (resp : Response pyfloat) (j : json pyfloat) :
  mocked resp →
  resp_json resp = Some j →
  (∀ members, j ≠ JObj members) →
  (fetching (A:=A) self endpoint w).1 = Raise TypeError.
Proof.
  intros Hnet Hbody Hj. rewrite (fetching_mocked self endpoint w resp Hnet).
  unfold record_of. rewrite Hbody.
  destruct j as [|b|z|f|s|items|members]; simpl; try done.
  by destruct (Hj members).
Qed.

(** X8. [get_league_by_id], [get_player_by_id] and [get_counts] unpack
    the body into the constructor: a JSON body that is not an object (an
    array, a string, a number, null) ends in [TypeError], before any
    field is validated. *)
Theorem fetch_operations_need_object (self : SWCClient) (w : world)
  (resp : Response pyfloat) (j : json pyfloat) :
  mocked resp →
  resp_json resp = Some j →
  (∀ members, j ≠ JObj members) →
  (∀ league_id, (get_league_by_id self league_id w).1 = Raise TypeError) ∧
  (∀ player_id, (get_player_by_id self player_id w).1 = Raise TypeError) ∧
  (get_counts self w).1 = Raise TypeError.
Proof.
  intros Hnet Hbody Hj.
  repeat split; intros; by eapply fetching_needs_object.
Qed.

Lemma fetching_places_bare {A : Type} `{!BaseModel pyfloat A}
  (self : SWCClient) (endpoint : string) (w : world) :
  places_bare (fetching (A:=A) self endpoint) w self endpoint.
Proof.
  destruct (fetching_run (A:=A) self endpoint w) as (n & _ & _ & Hrun).
  unfold places_bare. by rewrite Hrun.
Qed.

(** X9. [get_health_check], [get_counts] and [get_player_by_id] each
    place one GET on the client, on the root path, the counts path and
    the players path followed by the decimal text of the id as its last
    segment, without query parameters and without touching the store. *)
Theorem fetch_operations_requests (self : SWCClient) (w : world) :
  places_bare (get_health_check self) w self "/" ∧
  places_bare (get_counts self) w self "/v0/counts/" ∧
  (∀ player_id : Z,
     places_bare (get_player_by_id self player_id) w self
       ("/v0/players/" +:+ str_of_int player_id) ∧
     last_segment EmptyString ("/v0/players/" +:+ str_of_int player_id)
       = str_of_int player_id).
Proof.
  split; [|split].
  - destruct (call_api_run self HEALTH_CHECK_ENDPOINT None w)
      as (n & _ & _ & Hrun).
    unfold places_bare, get_health_check. by rewrite Hrun.
  - apply (fetching_places_bare (A:=Counts)).
  - intros player_id. split.
    + apply (fetching_places_bare (A:=Player)).
    + simpl. apply last_segment_str_of_int.
Qed.

(** *** Identifiers in paths *)

Lemma to_int_not_nil (z : Z) :
  Z.to_int z ≠ Decimal.Pos Decimal.Nil ∧ Z.to_int z ≠ Decimal.Neg Decimal.Nil.
Proof.
  destruct z as [|p|p]; simpl; split; try done;
    intros [= Hp]; by apply (Unsigned.to_uint_nonnil p).
Qed.

(** The decimal text reads back as the integer. *)
Lemma str_of_int_read_back (z : Z) :
  NilZero.int_of_string (str_of_int z) = Some (Z.to_int z).
Proof.
  destruct (to_int_not_nil z) as [Hpos Hneg]. by apply NilZero.isi.
Qed.

Lemma str_of_int_inj (a b : Z) : str_of_int a = str_of_int b → a = b.
Proof.
  intros Heq. apply DecimalZ.to_int_inj.
  pose proof (str_of_int_read_back a) as Ha.
  rewrite Heq, str_of_int_read_back in Ha. congruence.
Qed.

Lemma fetching_calls_inj {A : Type} `{!BaseModel pyfloat A}
  (self : SWCClient) (prefix : string) (a b : Z) (w : world) :
  calls (fetching (A:=A) self (prefix +:+ str_of_int a) w).2
    = calls (fetching (A:=A) self (prefix +:+ str_of_int b) w).2 →
  a = b.
Proof.
  destruct (fetching_run (A:=A) self (prefix +:+ str_of_int a) w)
    as (n & _ & _ & ->).
  destruct (fetching_run (A:=A) self (prefix +:+ str_of_int b) w)
    as (n' & _ & _ & ->).
  simpl. intros Heq. apply app_inv_head in Heq. injection Heq as Heq.
  apply String.app_inj in Heq. by apply str_of_int_inj.
Qed.

(** X10. The id can be read back from the path that [get_league_by_id]
    and [get_player_by_id] request, so two ids that differ never lead to
    the same request. *)
Theorem identifiers_keep_requests_apart (self : SWCClient) (w : world) :
  (∀ z : Z,
     Z.of_int <$>
       NilZero.int_of_string
         (last_segment EmptyString (LIST_LEAGUES_ENDPOINT +:+ str_of_int z))
     = Some z ∧
     Z.of_int <$>
       NilZero.int_of_string
         (last_segment EmptyString (LIST_PLAYERS_ENDPOINT +:+ str_of_int z))
     = Some z) ∧
  (∀ a b : Z,
     calls (get_league_by_id self a w).2 = calls (get_league_by_id self b w).2 →
     a = b) ∧
  (∀ a b : Z,
     calls (get_player_by_id self a w).2 = calls (get_player_by_id self b w).2 →
     a = b).
Proof.
  split; [|split].
  - intros z.
    assert (last_segment EmptyString (LIST_LEAGUES_ENDPOINT +:+ str_of_int z)
            = str_of_int z) as -> by apply (last_segment_str_of_int z).
    assert (last_segment EmptyString (LIST_PLAYERS_ENDPOINT +:+ str_of_int z)
            = str_of_int z) as -> by apply (last_segment_str_of_int z).
    rewrite str_of_int_read_back. simpl. by rewrite DecimalZ.of_to.
  - intros a b. apply (fetching_calls_inj (A:=League)).
  - intros a b. apply (fetching_calls_inj (A:=Player)).
Qed.

(** *** Bulk files: keys, names and errors *)

Lemma unknown_bulk_key (key : string) :
  key ∉ bulk_keys → BULK_FILE_NAMES_init !! key = None.
Proof.
  unfold bulk_keys. rewrite !not_elem_of_cons.
  intros (H1 & H2 & H3 & H4 & H5 & _).
  unfold BULK_FILE_NAMES_init. rewrite !lookup_insert_ne by done.
  apply lookup_empty.
Qed.

(** X11. The file name table has the five keys and no other: for any
    other key [__get_bulk_file] raises [KeyError] with that key and
    places no request at all. *)
Theorem get_bulk_file_unknown_key (cfg : SWCConfig) (key : string)
  (w : world) :
  key ∉ bulk_keys →
  __get_bulk_file (SWCClient_init cfg) key w = (Raise (KeyError key), w).
Proof.
  intros Hkey. unfold __get_bulk_file. simpl.
  by rewrite lookup_fmap, (unknown_bulk_key key Hkey).
Qed.

(** X12. A bulk file operation has no [except] clause and no retrying
    transport: what [httpx.get] raises is raised to the caller as it is,
    after the one attempt, with backoff configured or not. *)
Theorem bulk_file_error_propagates (cfg : SWCConfig)
  (op : SWCClient → M string) (logical : string) (w : world) (e : exn) :
  (op, logical) ∈ bulk_operations →
  net (wire w)
      (bulk_request (logical +:+ bulk_file_ext (swc_bulk_file_format cfg)))
    = Fails e →
  (op (SWCClient_init cfg) w).1 = Raise e ∧
  wire (op (SWCClient_init cfg) w).2 =
    wire w ++
    [bulk_request (logical +:+ bulk_file_ext (swc_bulk_file_format cfg))].
Proof.
  intros Hop Hnet.
  destruct (bulk_operations_keys op logical Hop) as (key & Hk & ->).
  rewrite (get_bulk_file_run cfg key logical w Hk).
  by rewrite (proj1 (follow_stops DEFAULT_MAX_REDIRECTS _ (called _ w)) e Hnet).
Qed.

Lemma append_cancel_r (s1 s2 t : string) : s1 +:+ t = s2 +:+ t → s1 = s2.
Proof.
  revert s2. induction s1 as [|c s1 IH]; intros [|c' s2] Heq; [done|..].
  - apply (f_equal String.length) in Heq.
    rewrite !length_append in Heq. simpl in Heq. lia.
  - apply (f_equal String.length) in Heq.
    rewrite !length_append in Heq. simpl in Heq. lia.
  - rewrite !append_cons in Heq. injection Heq as -> Heq.
    by rewrite (IH s2 Heq).
Qed.

Lemma logical_names_distinct (k1 k2 l1 l2 : string) :
  BULK_FILE_NAMES_init !! k1 = Some l1 →
  BULK_FILE_NAMES_init !! k2 = Some l2 →
  k1 ≠ k2 → l1 ≠ l2.
Proof.
  unfold BULK_FILE_NAMES_init. intros H1 H2 Hne.
  rewrite !lookup_insert, lookup_empty in H1.
  rewrite !lookup_insert, lookup_empty in H2.
  repeat case_decide; simplify_eq; done.
Qed.

(** X13. No two keys of the file name table lead to the same file name,
    whatever the configured format: the five bulk operations download
    five different files. *)
Theorem bulk_file_names_distinct (cfg : SWCConfig) (k1 k2 n1 n2 : string) :
  BULK_FILE_NAMES (SWCClient_init cfg) !! k1 = Some n1 →
  BULK_FILE_NAMES (SWCClient_init cfg) !! k2 = Some n2 →
  k1 ≠ k2 →
  n1 ≠ n2 ∧ BULK_FILE_BASE_URL +:+ n1 ≠ BULK_FILE_BASE_URL +:+ n2.
Proof.
  simpl. rewrite !lookup_fmap. intros H1 H2 Hne.
  destruct (BULK_FILE_NAMES_init !! k1) as [l1|] eqn:Hl1; [|done].
  destruct (BULK_FILE_NAMES_init !! k2) as [l2|] eqn:Hl2; [|done].
  simpl in H1, H2. injection H1 as <-. injection H2 as <-.
  assert (l1 +:+ bulk_file_ext (swc_bulk_file_format cfg)
          ≠ l2 +:+ bulk_file_ext (swc_bulk_file_format cfg)) as Hnames.
  { intros Heq. apply append_cancel_r in Heq.
    by apply (logical_names_distinct k1 k2 l1 l2). }
  split; [done|]. intros Heq. by apply String.app_inj in Heq.
Qed.

(** *** Attempts without backoff *)

Lemma listing_one_attempt {A : Type} `{!BaseModel pyfloat A}
  (cfg : SWCConfig) (endpoint : string) (d : pydict) (w : world) :
  swc_backoff cfg = false →
  one_attempt (listing (A:=A) (SWCClient_init cfg) endpoint d) w.
Proof.
  intros Hb.
  destruct (listing_run (A:=A) (SWCClient_init cfg) endpoint d w)
    as (n & fresh & _ & H0 & Hrun).
  rewrite (H0 (init_default_transport cfg Hb)) in Hrun.
  unfold one_attempt. rewrite Hrun. simpl. by eexists.
Qed.

Lemma fetching_one_attempt {A : Type} `{!BaseModel pyfloat A}
  (cfg : SWCConfig) (endpoint : string) (w : world) :
  swc_backoff cfg = false →
  one_attempt (fetching (A:=A) (SWCClient_init cfg) endpoint) w.
Proof.
  intros Hb.
  destruct (fetching_run (A:=A) (SWCClient_init cfg) endpoint w)
    as (n & _ & H0 & Hrun).
  rewrite (H0 (init_default_transport cfg Hb)) in Hrun.
  unfold one_attempt. rewrite Hrun. simpl. by eexists.
Qed.

(** X14. With backoff disabled, every operation on the API makes
    exactly one attempt on the wire, whether it ends in a result or in an
    exception of the transport, of the decoding or of the validation. *)
Theorem no_backoff_one_attempt (cfg : SWCConfig) (w : world) :
  swc_backoff cfg = false →
  let self := SWCClient_init cfg in
  (∀ endpoint params, one_attempt (call_api self endpoint params) w) ∧
  one_attempt (get_health_check self) w ∧
  (∀ skip limit date name,
     one_attempt (list_leagues self skip limit date name) w) ∧
  (∀ league_id, one_attempt (get_league_by_id self league_id) w) ∧
  one_attempt (get_counts self) w ∧
  (∀ skip limit date name league_id,
     one_attempt (list_teams self skip limit date name league_id) w) ∧
  (∀ skip limit date first last,
     one_attempt (list_players self skip limit date first last) w) ∧
  (∀ player_id, one_attempt (get_player_by_id self player_id) w) ∧
  (∀ skip limit date, one_attempt (list_performances self skip limit date) w).
Proof.
  intros Hb self.
  assert (∀ endpoint params, one_attempt (call_api self endpoint params) w)
    as Hcall.
  { intros endpoint params.
    destruct (call_api_run self endpoint params w) as (n & _ & H0 & Hrun).
    rewrite (H0 (init_default_transport cfg Hb)) in Hrun.
    unfold one_attempt. rewrite Hrun. simpl. by eexists. }
  split; [exact Hcall|].
  split; [apply Hcall|].
  split; [intros; by apply listing_one_attempt|].
  split; [intros; by apply fetching_one_attempt|].
  split; [by apply fetching_one_attempt|].
  split; [intros; by apply listing_one_attempt|].
  split; [intros; by apply listing_one_attempt|].
  split; [intros; by apply fetching_one_attempt|].
  intros; by apply listing_one_attempt.
Qed.

End Further.

(** ** The theorems at work on the sample data *)

(** C2 as the spec words it fails: [Parquet] is not the value [parquet],
    yet every file name of a client configured with it ends in
    [.parquet] and none ends in [.csv]. *)
Lemma Parquet_format_is_not_csv :
  swc_bulk_file_format (config_with_format "Parquet") ≠ "parquet" ∧
  Forall
    (λ key, ∃ name : string,
       BULK_FILE_NAMES (SWCClient_init (config_with_format "Parquet")) !! key
         = Some name ∧
       endswith name ".csv" = false ∧
       endswith name ".parquet" = true)
    bulk_keys.
Proof.
  split; [discriminate|].
  repeat constructor; eexists; (split; [vm_compute; reflexivity|]);
    split; vm_compute; reflexivity.
Qed.

Lemma bulk_file_names_extension_witness :
  ("players" ∈ bulk_keys ∧
   ∃ name : string,
     BULK_FILE_NAMES (SWCClient_init (config_with_format "Parquet")) !! "players"
       = Some name ∧
     (lower "Parquet" = "parquet" → endswith name ".parquet" = true) ∧
     (lower "Parquet" ≠ "parquet" → endswith name ".csv" = true)) ∧
  ("team_players" ∈ bulk_keys ∧
   ∃ name : string,
     BULK_FILE_NAMES (SWCClient_init (config_with_format "CSV")) !! "team_players"
       = Some name ∧
     (lower "CSV" = "parquet" → endswith name ".parquet" = true) ∧
     (lower "CSV" ≠ "parquet" → endswith name ".csv" = true)).
Proof.
  assert ("players" ∈ bulk_keys) as H1 by (vm_compute; apply list_elem_of_here).
  assert ("team_players" ∈ bulk_keys) as H2
    by (do 4 apply list_elem_of_further; apply list_elem_of_here).
  split; split; try done.
  - exact (bulk_file_names_extension (config_with_format "Parquet") "players" H1).
  - exact (bulk_file_names_extension (config_with_format "CSV") "team_players" H2).
Defined.

Lemma call_api_strips_unset_witness :
  deref 0 sample_world = Some sample_params ∧
  ∃ (req : request) (d' : pydict) (n : nat),
    calls (call_api (H:=sample_environment (always ok_response))
             (SWCClient_init sample_config) "/test" (Some 0%nat) sample_world).2
      = calls sample_world ++ [req] ∧
    wire (call_api (H:=sample_environment (always ok_response))
            (SWCClient_init sample_config) "/test" (Some 0%nat) sample_world).2
      = wire sample_world ++ replicate (S n) req ∧
    req_url req = "/test" ∧
    req_params req = Some d' ∧
    (∀ k, d' !! k ≠ Some VNone) ∧
    (∀ k v, v ≠ VNone → sample_params !! k = Some v → d' !! k = Some v) ∧
    (∀ k v, d' !! k = Some v → sample_params !! k = Some v).
Proof.
  split; [reflexivity|].
  apply (call_api_strips_unset (H:=sample_environment (always ok_response))
           (SWCClient_init sample_config) "/test" 0%nat sample_params
           sample_world).
  reflexivity.
Defined.

Lemma call_api_keeps_caller_mapping_witness :
  deref 0 sample_world = Some sample_params ∧
  deref 0 (call_api (H:=sample_environment (always ok_response))
             (SWCClient_init sample_config) "/test" (Some 0%nat) sample_world).2
    = Some sample_params ∧
  ∃ fresh : list pydict,
    heap (call_api (H:=sample_environment (always ok_response))
            (SWCClient_init sample_config) "/test" (Some 0%nat) sample_world).2
      = heap sample_world ++ fresh.
Proof.
  split; [reflexivity|].
  apply (call_api_keeps_caller_mapping
           (H:=sample_environment (always ok_response))
           (SWCClient_init sample_config) "/test" (Some 0%nat) 0%nat
           sample_params sample_world).
  reflexivity.
Defined.

Lemma no_backoff_fails_at_once_witness :
  swc_backoff sample_config = false ∧
  fails_at_once
    (get_health_check (H:=sample_environment (raises_then server_error ok_response))
       (SWCClient_init sample_config))
    empty_world server_error.
Proof.
  split; [reflexivity|].
  apply (no_backoff_fails_at_once
           (H:=sample_environment (raises_then server_error ok_response))
           sample_config empty_world server_error).
  - reflexivity.
  - intros req. reflexivity.
Defined.



Lemma bulk_file_request_witness :
  swc_backoff integration_config = true ∧
  calls (get_bulk_player_file
           (H:=sample_environment (redirects_once data_response))
           (SWCClient_init integration_config) empty_world).2
    = [{| req_entry := ViaModule;
          req_url := "https://raw.githubusercontent.com/evrins/hands-on-api-data/main/bulk/player_data.csv";
          req_params := None;
          req_follow_redirects := true |}] ∧
  ∃ more : list request,
    wire (get_bulk_player_file
            (H:=sample_environment (redirects_once data_response))
            (SWCClient_init integration_config) empty_world).2
      = {| req_entry := ViaModule;
           req_url := "https://raw.githubusercontent.com/evrins/hands-on-api-data/main/bulk/player_data.csv";
           req_params := None;
           req_follow_redirects := true |}
        :: {| req_entry := ViaModule;
              req_url := "https://mirror.example.com/bulk/player_data.csv";
              req_params := None;
              req_follow_redirects := true |}
        :: more.
Proof.
  split; [reflexivity|].
  destruct (bulk_file_request
              (H:=sample_environment (redirects_once data_response))
              integration_config
              (get_bulk_player_file
                 (H:=sample_environment (redirects_once data_response)))
              "player_data" empty_world)
    as (Hcalls & _ & Hfollows & _).
  - apply list_elem_of_here.
  - split; [exact Hcalls|].
    apply (Hfollows moved_response mirror_url); reflexivity.
Defined.

Lemma list_leagues_sample_witness :
  resp_json leagues_response = Some (JArr [sample_league_data]) ∧
  calls (list_leagues (H:=sample_environment (always leagues_response))
           (SWCClient_init sample_config)
           (Passed (VInt 10)) (Passed (VInt 50)) Omitted (Passed (VStr "Test"))
           empty_world).2
    = [{| req_entry := ViaClient "https://api.test.com";
          req_url := "/v0/leagues/";
          req_params :=
            Some (list_to_map [("skip", VInt 10); ("limit", VInt 50);
                               ("league_name", VStr "Test")]);
          req_follow_redirects := false |}] ∧
  ∃ lg : League (H:=sample_environment (always leagues_response)),
    (list_leagues (H:=sample_environment (always leagues_response))
       (SWCClient_init sample_config)
       (Passed (VInt 10)) (Passed (VInt 50)) Omitted (Passed (VStr "Test"))
       empty_world).1 = Ok [lg] ∧
    league_name lg = "Test League".
Proof.
  split; [reflexivity|].
  destruct (list_leagues_sample
              (H:=sample_environment (always leagues_response))
              (SWCClient_init sample_config) empty_world leagues_response
              "2024-01-01T00:00:00")
    as (Hcalls & _ & Hres).
  - intros h req. reflexivity.
  - reflexivity.
  - reflexivity.
  - split; [exact Hcalls | exact Hres].
Defined.

Lemma get_league_by_id_request_witness :
  resp_json league_response = Some sample_league_data ∧
  calls (get_league_by_id (H:=sample_environment (always league_response))
           (SWCClient_init sample_config) 1 empty_world).2
    = [{| req_entry := ViaClient "https://api.test.com";
          req_url := "/v0/leagues/1";
          req_params := None;
          req_follow_redirects := false |}] ∧
  (get_league_by_id (H:=sample_environment (always league_response))
     (SWCClient_init sample_config) 1 empty_world).1
    = Ok (sample_league (always league_response)) ∧
  league_id (sample_league (always league_response)) = 1.
Proof.
  split; [reflexivity|].
  destruct (get_league_by_id_request
              (H:=sample_environment (always league_response))
              (SWCClient_init sample_config) 1 empty_world league_response)
    as (Hcalls & _ & _ & _ & Hrecord & _).
  - intros h req. reflexivity.
  - split; [exact Hcalls|]. split; [|reflexivity].
    apply (Hrecord
             [ ("league_id", JInt 1);
               ("league_name", JStr "Test League");
               ("scoring_type", JStr "standard");
               ("last_changed_date", JStr "2024-01-01T00:00:00");
               ("teams", JArr []) ]
             1 "Test League" "standard" "2024-01-01T00:00:00"
             "2024-01-01T00:00:00" []);
      reflexivity.
Defined.

Lemma list_operations_in_order_witness :
  resp_json two_leagues_response
    = Some (JArr [sample_league_data; other_league_data]) ∧
  (list_leagues (H:=sample_environment (always two_leagues_response))
     (SWCClient_init sample_config) Omitted Omitted Omitted Omitted
     empty_world).1
    = Ok [ sample_league (always two_leagues_response);
           other_league (always two_leagues_response) ].
Proof.
  split; [reflexivity|].
  destruct (list_operations_in_order
              (H:=sample_environment (always two_leagues_response))
              (SWCClient_init sample_config) empty_world two_leagues_response
              [sample_league_data; other_league_data])
    as (Hleagues & _).
  - intros h req. reflexivity.
  - reflexivity.
  - apply (proj1 (Hleagues Omitted Omitted Omitted Omitted)).
    repeat constructor.
Defined.

(** ** The further properties at work on the sample data *)

Lemma call_api_needs_json_body_witness :
  status_code plain_response = 200 ∧
  (call_api (H:=sample_environment (always plain_response))
     (SWCClient_init sample_config) "/" None empty_world).1
    = Raise JSONDecodeError ∧
  (get_health_check (H:=sample_environment (always plain_response))
     (SWCClient_init sample_config) empty_world).1
    = Raise JSONDecodeError.
Proof.
  split; [reflexivity|].
  apply (call_api_needs_json_body
           (H:=sample_environment (always plain_response))
           (SWCClient_init sample_config) "/" None empty_world plain_response).
  - intros h req. reflexivity.
  - reflexivity.
Defined.

Lemma call_api_ignores_status_witness :
  status_code error_payload_response = 404 ∧
  (call_api (H:=sample_environment (always error_payload_response))
     (SWCClient_init sample_config) "/v0/leagues/99" None empty_world).1
    = Ok error_payload_response ∧
  (get_health_check (H:=sample_environment (always error_payload_response))
     (SWCClient_init sample_config) empty_world).1
    = Ok error_payload_response.
Proof.
  split; [reflexivity|].
  apply (call_api_ignores_status
           (H:=sample_environment (always error_payload_response))
           (SWCClient_init sample_config) "/v0/leagues/99" None empty_world
           error_payload_response (JObj [("detail", JStr "Not Found")])).
  - intros h req. reflexivity.
  - reflexivity.
Defined.

Lemma call_api_sends_clean_mapping_witness :
  deref 0 clean_world = Some clean_params ∧
  ∃ req : request,
    calls (call_api (H:=sample_environment (always ok_response))
             (SWCClient_init sample_config) "/test" (Some 0%nat) clean_world).2
      = calls clean_world ++ [req] ∧
    req_url req = "/test" ∧
    req_params req = Some clean_params.
Proof.
  split; [reflexivity|].
  apply (call_api_sends_clean_mapping
           (H:=sample_environment (always ok_response))
           (SWCClient_init sample_config) "/test" 0%nat clean_params
           clean_world).
  - reflexivity.
  - intros k. unfold clean_params. rewrite !list_to_map_cons, list_to_map_nil.
    rewrite !lookup_insert, lookup_empty.
    repeat case_decide; discriminate.
Defined.

Lemma list_operations_other_bodies_witness :
  resp_json error_payload_response = Some (JObj [("detail", JStr "Not Found")]) ∧
  (list_leagues (H:=sample_environment (always error_payload_response))
     (SWCClient_init sample_config) Omitted Omitted Omitted Omitted
     empty_world).1 = Raise TypeError.
Proof.
  split; [reflexivity|].
  apply (proj1 (list_operations_other_bodies
                  (H:=sample_environment (always error_payload_response))
                  (SWCClient_init sample_config) empty_world
                  error_payload_response
                  (JObj [("detail", JStr "Not Found")])
                  (λ h req, eq_refl) eq_refl)
           Omitted Omitted Omitted Omitted).
Defined.

Lemma list_operations_first_failure_witness :
  resp_json mixed_leagues_response
    = Some (JArr [sample_league_data; nameless_league_data; other_league_data]) ∧
  (list_leagues (H:=sample_environment (always mixed_leagues_response))
     (SWCClient_init sample_config) Omitted Omitted Omitted Omitted
     empty_world).1 = Raise (ValidationError "league_id").
Proof.
  split; [reflexivity|].
  apply (proj1 (list_operations_first_failure
                  (H:=sample_environment (always mixed_leagues_response))
                  (SWCClient_init sample_config) empty_world
                  mixed_leagues_response
                  [sample_league_data; nameless_league_data; other_league_data]
                  (λ h req, eq_refl) eq_refl)
           Omitted Omitted Omitted Omitted
           [sample_league_data] nameless_league_data [other_league_data]
           (ValidationError "league_id")).
  - reflexivity.
  - intros it Hit. apply list_elem_of_singleton in Hit. subst it.
    eexists. reflexivity.
  - reflexivity.
Defined.

Lemma fetch_operations_need_object_witness :
  resp_json leagues_response = Some (JArr [sample_league_data]) ∧
  (get_league_by_id (H:=sample_environment (always leagues_response))
     (SWCClient_init sample_config) 1 empty_world).1 = Raise TypeError.
Proof.
  split; [reflexivity|].
  destruct (fetch_operations_need_object
              (H:=sample_environment (always leagues_response))
              (SWCClient_init sample_config) empty_world leagues_response
              (JArr [sample_league_data]))
    as (Hleague & _).
  - intros h req. reflexivity.
  - reflexivity.
  - intros members. discriminate.
  - exact (Hleague 1).
Defined.

Lemma get_bulk_file_unknown_key_witness :
  ("games" ∉ bulk_keys) ∧
  (__get_bulk_file (H:=sample_environment (always ok_response))
     (SWCClient_init sample_config) "games" empty_world
   = (Raise (KeyError "games"), empty_world)).
Proof.
  assert ("games" ∉ bulk_keys) as Hkey.
  { unfold bulk_keys. rewrite !not_elem_of_cons.
    repeat split; try discriminate. apply not_elem_of_nil. }
  split; [exact Hkey|].
  exact (get_bulk_file_unknown_key
           (H:=sample_environment (always ok_response))
           sample_config "games" empty_world Hkey).
Defined.

Lemma bulk_file_error_propagates_witness :
  swc_backoff integration_config = true ∧
  (get_bulk_league_file
     (H:=sample_environment (raises_then server_error ok_response))
     (SWCClient_init integration_config) empty_world).1 = Raise server_error ∧
  wire (get_bulk_league_file
          (H:=sample_environment (raises_then server_error ok_response))
          (SWCClient_init integration_config) empty_world).2
    = [bulk_request "league_data.csv"].
Proof.
  split; [reflexivity|].
  apply (bulk_file_error_propagates
           (H:=sample_environment (raises_then server_error ok_response))
           integration_config get_bulk_league_file "league_data" empty_world
           server_error).
  - apply list_elem_of_further. apply list_elem_of_here.
  - reflexivity.
Defined.

Lemma bulk_file_names_distinct_witness :
  "team_data.parquet" ≠ "team_player_data.parquet" ∧
  BULK_FILE_BASE_URL +:+ "team_data.parquet"
    ≠ BULK_FILE_BASE_URL +:+ "team_player_data.parquet".
Proof.
  apply (bulk_file_names_distinct (config_with_format "parquet")
           "teams" "team_players").
  - vm_compute. reflexivity.
  - vm_compute. reflexivity.
  - discriminate.
Defined.

Lemma no_backoff_one_attempt_witness :
  swc_backoff sample_config = false ∧
  one_attempt
    (list_leagues (H:=sample_environment (always mixed_leagues_response))
       (SWCClient_init sample_config) Omitted Omitted Omitted Omitted)
    empty_world.
Proof.
  split; [reflexivity|].
  destruct (no_backoff_one_attempt
              (H:=sample_environment (always mixed_leagues_response))
              sample_config empty_world eq_refl)
    as (_ & _ & Hleagues & _).
  exact (Hleagues Omitted Omitted Omitted Omitted).
Defined.

(** ** Sample runs *)

Example lower_Parquet : lower "Parquet" = "parquet".
Proof. reflexivity. Qed.

Example str_of_int_negative : str_of_int (-12) = "-12".
Proof. reflexivity. Qed.

Example csv_names :
  BULK_FILE_NAMES (SWCClient_init sample_config) =
    list_to_map
      [("players", "player_data.csv"); ("leagues", "league_data.csv");
       ("performances", "performance_data.csv"); ("teams", "team_data.csv");
       ("team_players", "team_player_data.csv")].
Proof. vm_compute. reflexivity. Qed.

(** The filter of the unit test: [{param1: value, param2: None}] leaves as
    [{param1: value}], and the caller's dict stays as it was. *)
Example call_api_filters_none_params :
  let run := call_api (H:=sample_environment (always ok_response))
               (SWCClient_init sample_config) "/test" (Some 0%nat)
               sample_world in
  run.1 = Ok ok_response ∧
  map req_params (calls run.2) = [Some {[ "param1" := VStr "value" ]}] ∧
  heap run.2 = [sample_params; {[ "param1" := VStr "value" ]}].
Proof. vm_compute. done. Qed.

(** With backoff, a first attempt that fails is followed by a second,
    within the one call on the client. *)
Example backoff_retries :
  let run := get_health_check
               (H:=sample_environment (raises_then server_error ok_response))
               (SWCClient_init integration_config) empty_world in
  run.1 = Ok ok_response ∧ length (calls run.2) = 1%nat ∧
  length (wire run.2) = 2%nat.
Proof. vm_compute. done. Qed.

(** A league without its id fails as a whole. *)
Example league_without_id :
  construct (H:=sample_environment (always ok_response))
    (A:=League (H:=sample_environment (always ok_response)))
    (JObj [("league_name", JStr "Test League")])
  = Raise (ValidationError "league_id").
Proof. reflexivity. Qed.

(** A bulk download through one redirect: two attempts, the second on the
    mirror, and the content of the second answer. *)
Example bulk_file_through_redirect :
  let run := get_bulk_player_file
               (H:=sample_environment (redirects_once data_response))
               (SWCClient_init integration_config) empty_world in
  run.1 = Ok "player_id,first_name,last_name" ∧
  map req_url (calls run.2) = [BULK_FILE_BASE_URL +:+ "player_data.csv"] ∧
  map req_url (wire run.2)
    = [BULK_FILE_BASE_URL +:+ "player_data.csv"; mirror_url].
Proof. vm_compute. done. Qed.

(** A host that redirects for ever is asked twenty-one times. *)
Example bulk_file_redirect_loop :
  let run := get_bulk_player_file
               (H:=sample_environment (always moved_response))
               (SWCClient_init sample_config) empty_world in
  run.1 = Raise TooManyRedirects ∧ length (wire run.2) = 21%nat.
Proof. vm_compute. done. Qed.
